(** * Regression service: validation, least-squares fit, RMSE, transports

    A shallow embedding of [my-regression-app/code/myfit.py] and
    [my-regression-app/code/lambda_function.py].  The monolithic
    [my-regression-app/lambda_function.py] repeats the same two regression
    functions, the same two Flask routes and the same handler; it differs
    only in logging calls and in the text of the [RuntimeError] it raises.

    Numbers.  Python floats are modelled by real numbers extended with
    [NaN] and the two infinities.  Arithmetic on finite values is exact:
    rounding and overflow are not modelled, so a statement such as
    "params = [2, 0]" is the exact-arithmetic reading of the
    floating-point result.  What the numeric libraries decide by design
    is modelled: the integers numpy can store, and the cut-off
    [rcond = len(x) * eps] below which [polyfit] treats a singular value
    as zero. *)

From Stdlib Require Import Reals Lra Psatz List String Ascii ZArith Bool Lia.
From Stdlib Require Import ClassicalEpsilon DecimalString.
Import ListNotations.

Local Open Scope R_scope.
Local Set Warnings "-register-all".

(** ** Python values *)

Inductive float64 : Type :=
| Finite (r : R)
| NaN
| Inf (negative : bool).

(** The values [json.loads] can produce, which are also the values the
    regression functions receive and return.  A dict is an association
    list in insertion order. *)
Inductive pyval : Type :=
| PNone
| PBool (b : bool)
| PInt (z : Z)
| PFloat (f : float64)
| PStr (s : string)
| PList (l : list pyval)
| PDict (d : list (string * pyval)).

Definition dict : Type := list (string * pyval).

(** ** Exceptions *)

(** [JSONDecodeError] is a subclass of [ValueError]; [BadRequest] is
    werkzeug's HTTP exception, a plain [Exception].  [NumericError] stands
    for whichever exception numpy or scikit-learn raises on data that is
    not an array of finite floats ([LinAlgError] from [lstsq],
    [ValueError] from [np.finfo] or from the finiteness check of
    [mean_squared_error], [TypeError] from [lstsq] on objects). *)
Inductive exn : Type :=
| ValueError (msg : string)
| JSONDecodeError (msg : string)
| KeyError (key : string)
| RuntimeError (fmt : string) (cause : exn)
| AttributeError (msg : string)
| TypeError (msg : string)
| BadRequest (msg : string)
| NumericError (msg : string).

Inductive outcome (A : Type) : Type :=
| Return (a : A)
| Raise (e : exn).

Arguments Return {A} a.
Arguments Raise {A} e.

Definition bind {A B : Type} (m : outcome A) (k : A -> outcome B) : outcome B :=
  match m with
  | Return a => k a
  | Raise e => Raise e
  end.

(** [try: body except Exception as e: handler e] *)
Definition try_except {A : Type} (body : outcome A) (handler : exn -> outcome A)
  : outcome A :=
  match body with
  | Return a => Return a
  | Raise e => handler e
  end.

Declare Scope py_scope.
Delimit Scope py_scope with py.
Notation "x <- m ;; k" := (bind m (fun x => k))
  (at level 61, m at next level, right associativity) : py_scope.
Local Open Scope py_scope.

(** [isinstance(e, ValueError)], [isinstance(e, KeyError)],
    [isinstance(e, RuntimeError)] *)
Definition isinstance_ValueError (e : exn) : bool :=
  match e with
  | ValueError _ | JSONDecodeError _ => true
  | _ => false
  end.

Definition isinstance_JSONDecodeError (e : exn) : bool :=
  match e with
  | JSONDecodeError _ => true
  | _ => false
  end.

Definition isinstance_KeyError (e : exn) : bool :=
  match e with
  | KeyError _ => true
  | _ => false
  end.

Definition isinstance_RuntimeError (e : exn) : bool :=
  match e with
  | RuntimeError _ _ => true
  | _ => false
  end.

Definition class_name (e : exn) : string :=
  match e with
  | ValueError _ => "ValueError"
  | JSONDecodeError _ => "JSONDecodeError"
  | KeyError _ => "KeyError"
  | RuntimeError _ _ => "RuntimeError"
  | AttributeError _ => "AttributeError"
  | TypeError _ => "TypeError"
  | BadRequest _ => "BadRequest"
  | NumericError _ => "NumericError"
  end.

Definition quoted (s : string) : string :=
  String.append "'" (String.append s "'").

(** [repr(e)] and [str(e)].  An exception built from one argument prints
    that argument (a [KeyError] prints its [repr]); one built from two
    arguments, as the [RuntimeError] of [myfit.py] is, prints the tuple of
    its arguments. *)
Fixpoint repr_exn (e : exn) : string :=
  match e with
  | ValueError m | JSONDecodeError m | AttributeError m | TypeError m
  | BadRequest m | NumericError m | KeyError m =>
      String.append (class_name e) (String.append "(" (String.append (quoted m) ")"))
  | RuntimeError f c =>
      String.append "RuntimeError("
        (String.append (quoted f) (String.append ", " (String.append (repr_exn c) ")")))
  end.

Definition str_exn (e : exn) : string :=
  match e with
  | ValueError m | JSONDecodeError m | AttributeError m | TypeError m
  | BadRequest m | NumericError m => m
  | KeyError k => quoted k
  | RuntimeError f c =>
      String.append "("
        (String.append (quoted f) (String.append ", " (String.append (repr_exn c) ")")))
  end.

(** ** Built-ins used by the program *)

(** [isinstance(v, list)] *)
Definition isinstance_list (v : pyval) : bool :=
  match v with
  | PList _ => true
  | _ => false
  end.

(** [isinstance(val, (int, float))]: [bool] is a subclass of [int], and
    [nan] and the infinities are instances of [float]. *)
Definition isinstance_int_float (val : pyval) : bool :=
  match val with
  | PBool _ | PInt _ | PFloat _ => true
  | _ => false
  end.

(** The elements iterated over by [for val in x] once [x] is known to be
    a list. *)
Definition elements (v : pyval) : list pyval :=
  match v with
  | PList l => l
  | _ => []
  end.

Definition len (v : pyval) : nat := List.length (elements v).

(** Truth value of an object, as tested by [if not data] and [or]. *)
Definition truthy (v : pyval) : bool :=
  match v with
  | PNone => false
  | PBool b => b
  | PInt z => negb (Z.eqb z 0)
  | PFloat (Finite r) => if Req_dec_T r 0 then false else true
  | PFloat _ => true
  | PStr s => negb (String.eqb s "")
  | PList l => match l with [] => false | _ => true end
  | PDict d => match d with [] => false | _ => true end
  end.

(** [a or b] *)
Definition py_or (a b : pyval) : pyval := if truthy a then a else b.

(** [v is None] *)
Definition is_None (v : pyval) : bool :=
  match v with
  | PNone => true
  | _ => false
  end.

Fixpoint lookup (k : string) (d : dict) : option pyval :=
  match d with
  | [] => None
  | (k', v) :: d' => if String.eqb k k' then Some v else lookup k d'
  end.

(** [d[k]]: raises [KeyError] when the key is missing. *)
Definition getitem (d : dict) (k : string) : outcome pyval :=
  match lookup k d with
  | Some v => Return v
  | None => Raise (KeyError k)
  end.

Definition type_name (v : pyval) : string :=
  match v with
  | PNone => "NoneType"
  | PBool _ => "bool"
  | PInt _ => "int"
  | PFloat _ => "float"
  | PStr _ => "str"
  | PList _ => "list"
  | PDict _ => "dict"
  end.

(** [v.get(k)]: [None] when the key is missing; only a dict has the
    method. *)
Definition get (v : pyval) (k : string) : outcome pyval :=
  match v with
  | PDict d => Return (match lookup k d with Some a => a | None => PNone end)
  | _ => Raise (AttributeError
                  (String.append (quoted (type_name v))
                                 " object has no attribute 'get'"))
  end.

(** [v == s] for a string literal [s] *)
Definition eq_str (v : pyval) (s : string) : bool :=
  match v with
  | PStr t => String.eqb t s
  | _ => false
  end.

(** ** The numeric libraries, over the reals *)

(** The integers numpy stores as machine integers ([int64] or [uint64]).
    A list holding any other [int] becomes an array of objects, and
    [polyfit] raises on it. *)
Definition fits_machine_int (z : Z) : bool :=
  (Z.leb (- 2 ^ 63) z && Z.ltb z (2 ^ 64))%bool.

(** One entry of [np.asarray(x) + 0.0] on a list that passed the element
    check: a [bool] becomes 0.0 or 1.0, a machine integer its float;
    [None] for an entry that keeps the array from being an array of
    floats. *)
Definition to_float (v : pyval) : option float64 :=
  match v with
  | PBool b => Some (Finite (if b then 1 else 0))
  | PInt z => if fits_machine_int z then Some (Finite (IZR z)) else None
  | PFloat f => Some f
  | _ => None
  end.

(** The array as reals, when it is an array of floats and every entry is
    finite. *)
Fixpoint finite_array (l : list pyval) : option (list R) :=
  match l with
  | [] => Some []
  | v :: l' =>
      match to_float v, finite_array l' with
      | Some (Finite r), Some rs => Some (r :: rs)
      | _, _ => None
      end
  end.

Definition rsum (l : list R) : R := fold_right Rplus 0 l.

(** [sum(x**k)] and [sum(x**k * y)]: the entries of the normal equations
    of the design matrix whose row [i] is [1, x_i, x_i^2, ...]. *)
Definition power_sum (k : nat) (xs : list R) : R :=
  rsum (map (fun x => x ^ k) xs).

Definition moment (k : nat) (xs ys : list R) : R :=
  rsum (map (fun p => fst p ^ k * snd p) (combine xs ys)).

(** [np.finfo(float64).eps] and the cut-off [rcond = len(x) * eps] that
    [polyfit] passes to [lstsq]: a singular value [s] of the scaled
    design matrix with [s <= rcond * s_max] is treated as zero. *)
Definition eps : R := / 2 ^ 52.

Definition rcond (n : nat) : R := INR n * eps.

(** The norm by which [polyfit] divides a column of the design matrix:
    [scl = sqrt(sum(column ** 2))], with [scl[scl == 0] = 1]. *)
Definition column_norm (s : R) : R := if Req_dec_T s 0 then 1 else sqrt s.

(** Degree 1.  The scaled design matrix has the columns [1 / scl0] and
    [x / scl1]; when [x] is not the zero column its Gram matrix is
    [[1, g], [g, 1]] with [g] below, and its singular values are
    [sqrt(1 + |g|) >= sqrt(1 - |g|)]. *)
Definition gram1 (xs : list R) : R :=
  power_sum 1 xs
  / (column_norm (power_sum 0 xs) * column_norm (power_sum 2 xs)).

Definition singular_values1 (xs : list R) : R * R :=
  (sqrt (1 + Rabs (gram1 xs)), sqrt (1 - Rabs (gram1 xs))).

(** No singular value is cut: the fit is the solution of the normal
    equations. *)
Definition full_numerical_rank1 (xs : list R) : Prop :=
  power_sum 2 xs <> 0
  /\ rcond (List.length xs) * fst (singular_values1 xs)
     < snd (singular_values1 xs).

(** Degree 1 of [numpy.polynomial.polynomial.polyfit], coefficients from
    LOW to HIGH degree: [intercept; slope].  [polyfit] solves the scaled
    least-squares problem with [lstsq], which returns the solution of
    minimum norm over the singular values above the cut-off, and divides
    the result by the column norms.  It never raises on a rank-deficient
    system; it only issues a [RankWarning].
    - Both singular values kept: the solution of the normal equations.
    - The smaller one cut (identical or nearly identical abscissae): the
      component along the leading singular vector [(1, sign g) / sqrt 2].
    - [x] the zero column: the mean of [y] and a zero slope.
    - Every singular value cut ([rcond >= 1]): zero coefficients. *)
Definition polyfit1 (xs ys : list R) : list R :=
  let r := rcond (List.length xs) in
  let s0 := power_sum 0 xs in
  let s1 := power_sum 1 xs in
  let s2 := power_sum 2 xs in
  let t0 := moment 0 xs ys in
  let t1 := moment 1 xs ys in
  let D := s0 * s2 - s1 * s1 in
  if Req_dec_T s2 0 then
    if Rlt_dec r 1 then [t0 / s0; 0] else [0; 0]
  else if Rlt_dec (r * fst (singular_values1 xs)) (snd (singular_values1 xs)) then
    [(s2 * t0 - s1 * t1) / D; (s0 * t1 - s1 * t0) / D]
  else if Rlt_dec r 1 then
    let sgn := if Rle_dec 0 s1 then 1 else -1 in
    let w := (t0 / sqrt s0 + sgn * (t1 / sqrt s2))
             / (2 * (1 + Rabs (gram1 xs))) in
    [w / sqrt s0; sgn * w / sqrt s2]
  else [0; 0].

Definition det3 (a b c d e f g h i : R) : R :=
  a * (e * i - f * h) - b * (d * i - f * g) + c * (d * h - e * g).

(** Degree 2.  The Gram matrix of the three scaled columns, a symmetric
    matrix given by its upper triangle. *)
Record sym3 : Type := mkSym3 {
  m00 : R; m01 : R; m02 : R; m11 : R; m12 : R; m22 : R
}.

Definition gram2 (xs : list R) : sym3 :=
  let n0 := column_norm (power_sum 0 xs) in
  let n1 := column_norm (power_sum 2 xs) in
  let n2 := column_norm (power_sum 4 xs) in
  mkSym3 (power_sum 0 xs / (n0 * n0)) (power_sum 1 xs / (n0 * n1))
         (power_sum 2 xs / (n0 * n2)) (power_sum 2 xs / (n1 * n1))
         (power_sum 3 xs / (n1 * n2)) (power_sum 4 xs / (n2 * n2)).

(** [det(l I - G)]: its roots are the eigenvalues of [G], the squares of
    the singular values of the scaled design matrix. *)
Definition char_poly (G : sym3) (l : R) : R :=
  det3 (l - m00 G) (- m01 G) (- m02 G)
       (- m01 G) (l - m11 G) (- m12 G)
       (- m02 G) (- m12 G) (l - m22 G).

Definition singular_value (G : sym3) (s : R) : Prop :=
  0 <= s /\ char_poly G (s * s) = 0.

(** No singular value is cut: each exceeds [rcond] times every other. *)
Definition full_numerical_rank2 (xs : list R) : Prop :=
  forall s s',
    singular_value (gram2 xs) s -> singular_value (gram2 xs) s' ->
    rcond (List.length xs) * s' < s.

Definition vec3 : Type := (R * R * R)%type.

Definition dot (u v : vec3) : R :=
  let '(u0, u1, u2) := u in
  let '(v0, v1, v2) := v in
  u0 * v0 + u1 * v1 + u2 * v2.

Definition apply_sym3 (G : sym3) (v : vec3) : vec3 :=
  let '(v0, v1, v2) := v in
  (m00 G * v0 + m01 G * v1 + m02 G * v2,
   m01 G * v0 + m11 G * v1 + m12 G * v2,
   m02 G * v0 + m12 G * v1 + m22 G * v2).

Definition scaled (a : R) (v : vec3) : vec3 :=
  let '(v0, v1, v2) := v in (a * v0, a * v1, a * v2).

Definition plus3 (u v : vec3) : vec3 :=
  let '(u0, u1, u2) := u in
  let '(v0, v1, v2) := v in
  (u0 + v0, u1 + v1, u2 + v2).

(** What [lstsq] returns for the scaled problem with Gram matrix [G] and
    right-hand side [b]: over an orthonormal basis of eigenvectors of
    [G], the components of the least-squares solution along the
    eigenvectors whose singular value [sqrt l] is above the cut-off, and
    zero along the others. *)
Definition truncated_lstsq (G : sym3) (b : vec3) (r : R) (c : vec3) : Prop :=
  exists v1 v2 v3 l1 l2 l3,
    apply_sym3 G v1 = scaled l1 v1
    /\ apply_sym3 G v2 = scaled l2 v2
    /\ apply_sym3 G v3 = scaled l3 v3
    /\ dot v1 v1 = 1 /\ dot v2 v2 = 1 /\ dot v3 v3 = 1
    /\ dot v1 v2 = 0 /\ dot v1 v3 = 0 /\ dot v2 v3 = 0
    /\ let cut := r * sqrt (Rmax l1 (Rmax l2 l3)) in
       let part l v :=
         scaled (if Rlt_dec cut (sqrt l) then dot v b / l else 0) v in
       c = plus3 (part l1 v1) (plus3 (part l2 v2) (part l3 v3)).

(** Degree 2, coefficients from LOW to HIGH degree: [c0; c1; c2].  With
    no singular value cut the result is the solution of the normal
    equations, by Cramer's rule.  Otherwise it is the truncated solution
    of [lstsq], divided by the column norms. *)
Definition polyfit2 (xs ys : list R) : list R :=
  let s0 := power_sum 0 xs in
  let s1 := power_sum 1 xs in
  let s2 := power_sum 2 xs in
  let s3 := power_sum 3 xs in
  let s4 := power_sum 4 xs in
  let t0 := moment 0 xs ys in
  let t1 := moment 1 xs ys in
  let t2 := moment 2 xs ys in
  let D := det3 s0 s1 s2 s1 s2 s3 s2 s3 s4 in
  if excluded_middle_informative (full_numerical_rank2 xs) then
    [det3 t0 s1 s2 t1 s2 s3 t2 s3 s4 / D;
     det3 s0 t0 s2 s1 t1 s3 s2 t2 s4 / D;
     det3 s0 s1 t0 s1 s2 t1 s2 s3 t2 / D]
  else
    let n0 := column_norm s0 in
    let n1 := column_norm s2 in
    let n2 := column_norm s4 in
    let '(c0, c1, c2) :=
      epsilon (inhabits (0, 0, 0))
        (truncated_lstsq (gram2 xs) (t0 / n0, t1 / n1, t2 / n2)
           (rcond (List.length xs))) in
    [c0 / n0; c1 / n1; c2 / n2].

(** [polyfit(x, y, deg)] for the two degrees the program asks for. *)
Definition polyfit (xs ys : list R) (deg : nat) : list R :=
  match deg with
  | 1%nat => polyfit1 xs ys
  | 2%nat => polyfit2 xs ys
  | _ => []
  end.

(** [numpy.polynomial.polynomial.polyval(x, c)] at one point: Horner's
    rule on coefficients read from LOW to HIGH degree,
    [c[0] + x*(c[1] + x*(c[2] + ...))]. *)
Definition polyval1 (x : R) (c : list R) : R :=
  fold_right (fun ck acc => ck + acc * x) 0 c.

(** [polyval] on an array of points. *)
Definition polyval (xs : list R) (c : list R) : list R :=
  map (fun x => polyval1 x c) xs.

(** [sklearn.metrics.mean_squared_error(y_true, y_pred)]:
    [np.average((y_true - y_pred) ** 2)]. *)
Definition mean_squared_error (y_true y_pred : list R) : R :=
  rsum (map (fun p => (fst p - snd p) ^ 2) (combine y_true y_pred))
  / INR (List.length y_true).

(** ** myfit.py *)

Definition fit_result (params : list pyval) (rmse : pyval) : pyval :=
  PDict [("params"%string, PList params); ("RMSE"%string, rmse)].

Definition non_finite : exn :=
  NumericError "Input is not an array of finite floats.".

(** The arrays numpy builds from [x] and [y].  Data that is not an array
    of finite floats makes the body of the [try] raise: on an array of
    objects [polyfit] fails, and on [nan] or an infinity
    [mean_squared_error] rejects [y] or the predictions when [lstsq] has
    not already failed. *)
Definition arrays (x y : pyval) : outcome (list R * list R) :=
  match finite_array (elements x), finite_array (elements y) with
  | Some xs, Some ys => Return (xs, ys)
  | _, _ => Raise non_finite
  end.

Definition linear_regression (x y : pyval) : outcome pyval :=
  if negb (isinstance_list x) || negb (isinstance_list y) then
    Raise (ValueError "Input arguments 'x' and 'y' must be lists.")
  else if negb (forallb isinstance_int_float (elements x))
          || negb (forallb isinstance_int_float (elements y)) then
    Raise (ValueError "Input lists 'x' and 'y' must contain numbers.")
  else if negb (Nat.eqb (len x) (len y)) then
    Raise (ValueError "Input lists 'x' and 'y' must have the same length.")
  else if Nat.ltb (len x) 2 then
    Return (fit_result [PInt 0; PInt 0] (PInt 0))
  else
    try_except
      (a <- arrays x y ;;
       let (xs, ys) := a in
       match polyfit xs ys 1 with
       | [p1; p0] =>
           let y_predicted := polyval xs [p0; p1] in
           let rmse := sqrt (mean_squared_error ys y_predicted) in
           Return (fit_result [PFloat (Finite p0); PFloat (Finite p1)]
                              (PFloat (Finite rmse)))
       | _ => Raise (ValueError "wrong number of values to unpack")
       end)
      (fun e => Raise (RuntimeError "Error during linear regression: %s" e)).

Definition quadratic_regression (x y : pyval) : outcome pyval :=
  if negb (isinstance_list x) || negb (isinstance_list y) then
    Raise (ValueError "Input arguments 'x' and 'y' must be lists.")
  else if negb (forallb isinstance_int_float (elements x))
          || negb (forallb isinstance_int_float (elements y)) then
    Raise (ValueError "Input lists 'x' and 'y' must contain numbers.")
  else if negb (Nat.eqb (len x) (len y)) then
    Raise (ValueError "Input lists 'x' and 'y' must have the same length.")
  else if Nat.ltb (len x) 3 then
    Return (fit_result [PInt 0; PInt 0; PInt 0] (PInt 0))
  else
    try_except
      (a <- arrays x y ;;
       let (xs, ys) := a in
       match polyfit xs ys 2 with
       | [p2; p1; p0] =>
           let y_predicted := polyval xs [p0; p1; p2] in
           let rmse := sqrt (mean_squared_error ys y_predicted) in
           Return (fit_result
                     [PFloat (Finite p0); PFloat (Finite p1); PFloat (Finite p2)]
                     (PFloat (Finite rmse)))
       | _ => Raise (ValueError "wrong number of values to unpack")
       end)
      (fun e => Raise (RuntimeError "Error during quadratic regression: %s" e)).

(** ** json.loads *)

(** The decoder of Python's [json] module on a [str] document: the JSON
    grammar plus the constants [NaN], [Infinity] and [-Infinity] that
    Python accepts.  [None] stands for [JSONDecodeError].  A document is a
    string of bytes (UTF-8); a float literal denotes its exact decimal
    value. *)
Module Json.

Definition code (c : ascii) : N := N_of_ascii c.

Definition is_ws (c : ascii) : bool :=
  let n := code c in
  (N.eqb n 32 || N.eqb n 9 || N.eqb n 10 || N.eqb n 13)%bool.

Definition is_digit (c : ascii) : bool :=
  (N.leb 48 (code c) && N.leb (code c) 57)%bool.

Definition digit_val (c : ascii) : Z := (Z.of_N (code c) - 48)%Z.

Definition hex_val (c : ascii) : option N :=
  let n := code c in
  if (N.leb 48 n && N.leb n 57)%bool then Some (n - 48)%N
  else if (N.leb 97 n && N.leb n 102)%bool then Some (n - 87)%N
  else if (N.leb 65 n && N.leb n 70)%bool then Some (n - 55)%N
  else None.

Fixpoint skip_ws (s : string) : string :=
  match s with
  | String c s' => if is_ws c then skip_ws s' else s
  | EmptyString => s
  end.

Fixpoint scan_digits (s : string) (acc : Z) (k : nat) : Z * nat * string :=
  match s with
  | String c s' =>
      if is_digit c then scan_digits s' (10 * acc + digit_val c)%Z (S k)
      else (acc, k, s)
  | EmptyString => (acc, k, s)
  end.

(** [s] with the literal [lit] removed from its front. *)
Fixpoint strip_prefix (lit s : string) : option string :=
  match lit, s with
  | EmptyString, _ => Some s
  | String a lit', String b s' =>
      if Ascii.eqb a b then strip_prefix lit' s' else None
  | String _ _, EmptyString => None
  end.

Definition starts_with_digit (s : string) : bool :=
  match s with
  | String c _ => is_digit c
  | EmptyString => false
  end.

(** A number: an optional minus sign; an integer part, either a single
    zero or a non-zero digit followed by digits; an optional fraction, a
    dot and at least one digit; an optional exponent, [e] or [E], an
    optional sign and at least one digit.  The value is an [int] without
    fraction and exponent, a [float] otherwise. *)
Definition scan_number (s : string) : option (pyval * string) :=
  let (neg, s1) :=
    match strip_prefix "-" s with
    | Some s' => (true, s')
    | None => (false, s)
    end in
  match s1 with
  | EmptyString => None
  | String c s2 =>
      if negb (is_digit c) then None else
      let '(i, s3) :=
        if N.eqb (code c) 48 then (0%Z, s2)
        else let '(v, _, r) := scan_digits s1 0%Z 0%nat in (v, r) in
      let '(m, nfrac, s4, has_frac) :=
        match strip_prefix "." s3 with
        | Some s' =>
            if starts_with_digit s' then
              let '(v, k, r) := scan_digits s' i 0%nat in (v, k, r, true)
            else (i, 0%nat, s3, false)
        | None => (i, 0%nat, s3, false)
        end in
      let '(e, s5, has_exp) :=
        let after_e :=
          match strip_prefix "e" s4, strip_prefix "E" s4 with
          | Some s', _ | None, Some s' => Some s'
          | None, None => None
          end in
        match after_e with
        | Some s' =>
            let (eneg, s'') :=
              match strip_prefix "-" s', strip_prefix "+" s' with
              | Some t, _ => (true, t)
              | None, Some t => (false, t)
              | None, None => (false, s')
              end in
            if starts_with_digit s'' then
              let '(v, _, r) := scan_digits s'' 0%Z 0%nat in
              ((if eneg then - v else v)%Z, r, true)
            else (0%Z, s4, false)
        | None => (0%Z, s4, false)
        end in
      if (has_frac || has_exp)%bool then
        let mag := IZR m * powerRZ 10 (e - Z.of_nat nfrac) in
        Some (PFloat (Finite (if neg then - mag else mag)), s5)
      else Some (PInt (if neg then - i else i)%Z, s5)
  end.

Definition byte (n : N) : ascii := ascii_of_N n.

(** UTF-8 encoding of a code point. *)
Definition utf8 (cp : N) : string :=
  if N.ltb cp 128 then String (byte cp) EmptyString
  else if N.ltb cp 2048 then
    String (byte (192 + cp / 64)) (String (byte (128 + cp mod 64)) EmptyString)
  else if N.ltb cp 65536 then
    String (byte (224 + cp / 4096))
      (String (byte (128 + (cp / 64) mod 64))
         (String (byte (128 + cp mod 64)) EmptyString))
  else
    String (byte (240 + cp / 262144))
      (String (byte (128 + (cp / 4096) mod 64))
         (String (byte (128 + (cp / 64) mod 64))
            (String (byte (128 + cp mod 64)) EmptyString))).

(** Four hexadecimal digits. *)
Definition scan_hex4 (s : string) : option (N * string) :=
  match s with
  | String a (String b (String c (String d r))) =>
      match hex_val a, hex_val b, hex_val c, hex_val d with
      | Some x, Some y, Some z, Some w =>
          Some (((x * 16 + y) * 16 + z) * 16 + w, r)%N
      | _, _, _, _ => None
      end
  | _ => None
  end.

(** The character after a backslash, other than [u]. *)
Definition unescape (c : ascii) : option ascii :=
  let n := code c in
  if (N.eqb n 34 || N.eqb n 92 || N.eqb n 47)%bool then Some c
  else if N.eqb n 98 then Some (byte 8)
  else if N.eqb n 102 then Some (byte 12)
  else if N.eqb n 110 then Some (byte 10)
  else if N.eqb n 114 then Some (byte 13)
  else if N.eqb n 116 then Some (byte 9)
  else None.

(** An escape [uXXXX]; a high surrogate followed by an escaped low
    surrogate is one code point. *)
Definition scan_unicode (s : string) : option (N * string) :=
  match scan_hex4 s with
  | Some (u, r) =>
      if (N.leb 55296 u && N.leb u 56319)%bool then
        match strip_prefix "\u" r with
        | Some r' =>
            match scan_hex4 r' with
            | Some (u2, r'') =>
                if (N.leb 56320 u2 && N.leb u2 57343)%bool then
                  Some (65536 + (u - 55296) * 1024 + (u2 - 56320), r'')%N
                else Some (u, r)
            | None => None
            end
        | None => Some (u, r)
        end
      else Some (u, r)
  | None => None
  end.

(** The body of a string literal, after its opening quote. *)
Fixpoint scan_string (fuel : nat) (s : string) : option (string * string) :=
  match fuel with
  | O => None
  | S fuel' =>
      match s with
      | EmptyString => None
      | String c s' =>
          if N.eqb (code c) 34 then Some (EmptyString, s')
          else if N.eqb (code c) 92 then
            match s' with
            | EmptyString => None
            | String e s'' =>
                if N.eqb (code e) 117 then
                  match scan_unicode s'' with
                  | Some (cp, r) =>
                      match scan_string fuel' r with
                      | Some (t, rest) => Some (String.append (utf8 cp) t, rest)
                      | None => None
                      end
                  | None => None
                  end
                else
                  match unescape e with
                  | Some ch =>
                      match scan_string fuel' s'' with
                      | Some (t, rest) => Some (String ch t, rest)
                      | None => None
                      end
                  | None => None
                  end
            end
          else if N.ltb (code c) 32 then None
          else
            match scan_string fuel' s' with
            | Some (t, rest) => Some (String c t, rest)
            | None => None
            end
      end
  end.

(** [d[k] = v] on a dict: a repeated key keeps its place and takes the
    last value. *)
Fixpoint dict_set (k : string) (v : pyval) (d : dict) : dict :=
  match d with
  | [] => [(k, v)]
  | (k', v') :: d' =>
      if String.eqb k k' then (k, v) :: d' else (k', v') :: dict_set k v d'
  end.

Definition first_is (n : N) (s : string) : option string :=
  match s with
  | String c s' => if N.eqb (code c) n then Some s' else None
  | EmptyString => None
  end.

Definition scan_constant (s : string) : option (pyval * string) :=
  match strip_prefix "null" s with
  | Some r => Some (PNone, r)
  | None =>
  match strip_prefix "true" s with
  | Some r => Some (PBool true, r)
  | None =>
  match strip_prefix "false" s with
  | Some r => Some (PBool false, r)
  | None =>
  match scan_number s with
  | Some res => Some res
  | None =>
  match strip_prefix "NaN" s with
  | Some r => Some (PFloat NaN, r)
  | None =>
  match strip_prefix "Infinity" s with
  | Some r => Some (PFloat (Inf false), r)
  | None =>
  match strip_prefix "-Infinity" s with
  | Some r => Some (PFloat (Inf true), r)
  | None => None
  end end end end end end end.

(** One value at the front of [s]; the members of an object after its
    brace or a comma; the elements of an array after its bracket or a
    comma. *)
Fixpoint scan_value (fuel : nat) (s : string) : option (pyval * string) :=
  match fuel with
  | O => None
  | S fuel' =>
      match first_is 34 s with
      | Some s' =>
          match scan_string (String.length s') s' with
          | Some (t, r) => Some (PStr t, r)
          | None => None
          end
      | None =>
      match first_is 123 s with
      | Some s' =>
          let s'' := skip_ws s' in
          match first_is 125 s'' with
          | Some r => Some (PDict [], r)
          | None =>
              match scan_members fuel' s'' [] with
              | Some (d, r) => Some (PDict d, r)
              | None => None
              end
          end
      | None =>
      match first_is 91 s with
      | Some s' =>
          let s'' := skip_ws s' in
          match first_is 93 s'' with
          | Some r => Some (PList [], r)
          | None =>
              match scan_elements fuel' s'' with
              | Some (l, r) => Some (PList l, r)
              | None => None
              end
          end
      | None => scan_constant s
      end end end
  end

with scan_members (fuel : nat) (s : string) (acc : dict) : option (dict * string) :=
  match fuel with
  | O => None
  | S fuel' =>
      match first_is 34 s with
      | None => None
      | Some s1 =>
          match scan_string (String.length s1) s1 with
          | None => None
          | Some (k, s2) =>
              match first_is 58 (skip_ws s2) with
              | None => None
              | Some s3 =>
                  match scan_value fuel' (skip_ws s3) with
                  | None => None
                  | Some (v, s4) =>
                      let acc' := dict_set k v acc in
                      let s5 := skip_ws s4 in
                      match first_is 125 s5 with
                      | Some r => Some (acc', r)
                      | None =>
                          match first_is 44 s5 with
                          | Some s6 => scan_members fuel' (skip_ws s6) acc'
                          | None => None
                          end
                      end
                  end
              end
          end
      end
  end

with scan_elements (fuel : nat) (s : string) : option (list pyval * string) :=
  match fuel with
  | O => None
  | S fuel' =>
      match scan_value fuel' s with
      | None => None
      | Some (v, s1) =>
          let s2 := skip_ws s1 in
          match first_is 93 s2 with
          | Some r => Some ([v], r)
          | None =>
              match first_is 44 s2 with
              | Some s3 =>
                  match scan_elements fuel' (skip_ws s3) with
                  | Some (l, r) => Some (v :: l, r)
                  | None => None
                  end
              | None => None
              end
          end
      end
  end.

Definition loads (s : string) : option pyval :=
  let s0 := skip_ws s in
  match scan_value (S (S (String.length s0))) s0 with
  | Some (v, r) =>
      match skip_ws r with
      | EmptyString => Some v
      | String _ _ => None
      end
  | None => None
  end.

End Json.

(** [json.loads(v)] on a Python value: a document must be a [str]. *)
Definition json_loads (v : pyval) : outcome pyval :=
  match v with
  | PStr s =>
      match Json.loads s with
      | Some a => Return a
      | None => Raise (JSONDecodeError "Expecting value")
      end
  | _ => Raise (TypeError
                  (String.append
                     "the JSON object must be str, bytes or bytearray, not "
                     (type_name v)))
  end.

(** ** json.dumps and jsonify *)

Definition dquote : string := String (ascii_of_nat 34) EmptyString.
















(** ** lambda_function.py *)

(** A response: the status code, the JSON value given to [jsonify] or to
    [json.dumps], and the headers.  The text sent is [jsonify] of the body
    for a Flask route and [json_dumps] of the body for the handler. *)
Record response : Type := mkResponse {
  statusCode : Z;
  body : pyval;
  headers : list (string * string)
}.

Definition json_headers : list (string * string) :=
  [("Content-Type"%string, "application/json"%string)].

(** [jsonify(obj), status] and the dict the handler builds around
    [json.dumps(obj)]. *)
Definition json_response (status : Z) (obj : pyval) : response :=
  mkResponse status obj json_headers.

Definition error_body (msg : string) : pyval :=
  PDict [("error"%string, PStr msg)].

(** [request.get_json()] of a request whose content type is JSON and
    whose body is [payload]: a body that does not parse makes Flask raise
    [BadRequest]. *)
Definition get_json (payload : string) : outcome pyval :=
  match Json.loads payload with
  | Some data => Return data
  | None => Raise (BadRequest
                     (String.append "400 Bad Request: The browser (or proxy) "
                        "sent a request that this server could not understand."))
  end.

(** The message [Request body must contain "x" and "y" arrays.] *)
Definition missing_fields : string :=
  String.concat EmptyString
    ["Request body must contain "%string; dquote; "x"%string; dquote;
     " and "%string; dquote; "y"%string; dquote; " arrays."%string].

(** The three [except] clauses shared by the two Flask routes. *)
Definition flask_except (e : exn) : response :=
  if isinstance_ValueError e then json_response 400 (error_body (str_exn e))
  else if isinstance_RuntimeError e then json_response 500 (error_body (str_exn e))
  else json_response 500
         (error_body (String.append "Internal server error: " (str_exn e))).

(** The body shared by the two routes, which differ in the regression
    they call. *)
Definition flask_route (regression : pyval -> pyval -> outcome pyval)
  (payload : string) : response :=
  match
    (data <- get_json payload ;;
     if negb (truthy data) then
       Return (json_response 400 (error_body "Request body must be JSON"))
     else
       x <- get data "x" ;;
       y <- get data "y" ;;
       if (is_None x || is_None y)%bool then
         Return (json_response 400 (error_body missing_fields))
       else
         result <- regression x y ;;
         Return (json_response 200 result))
  with
  | Return r => r
  | Raise e => flask_except e
  end.

(** Flask route [/linear] *)
Definition linear (payload : string) : response :=
  flask_route linear_regression payload.

(** Flask route [/quadratic] *)
Definition quadratic (payload : string) : response :=
  flask_route quadratic_regression payload.

(** The [except] clauses of the handler, in the order they are written:
    [(ValueError, KeyError)], [json.JSONDecodeError], [RuntimeError],
    [Exception]. *)
Definition handler_except (e : exn) : response :=
  if (isinstance_ValueError e || isinstance_KeyError e)%bool then
    json_response 400 (error_body (str_exn e))
  else if isinstance_JSONDecodeError e then
    json_response 400
      (error_body (String.append "Invalid JSON in request body: " (str_exn e)))
  else if isinstance_RuntimeError e then
    json_response 500 (error_body (str_exn e))
  else
    json_response 500
      (error_body (String.append "Internal Server Error: " (str_exn e))).

(** The Lambda handler; [event] is a dict. *)
Definition handler (event : dict) : response :=
  match
    (raw <- getitem event "body" ;;
     body <- json_loads (py_or raw (PStr "{}")) ;;
     x <- get body "x" ;;
     y <- get body "y" ;;
     routeKey <- getitem event "routeKey" ;;
     if eq_str routeKey "POST /linear" then
       result <- linear_regression x y ;;
       Return (json_response 200 result)
     else
       routeKey' <- getitem event "routeKey" ;;
       if eq_str routeKey' "POST /quadratic" then
         result <- quadratic_regression x y ;;
         Return (json_response 200 result)
       else
         Return (json_response 404 (error_body "Not Found")))
  with
  | Return r => r
  | Raise e => handler_except e
  end.

(** ** Outcome classes and sample inputs *)

Definition ints (l : list Z) : pyval := PList (map PInt l).

(** The event of an HTTP request with the given route key and body. *)
Definition http_event (routeKey payload : string) : dict :=
  [("routeKey"%string, PStr routeKey); ("body"%string, PStr payload)].

(** The document [{"x":[1],"y":[2]}]. *)
Definition one_sample_payload : string :=
  String.concat EmptyString
    ["{"%string; dquote; "x"%string; dquote; ":[1],"%string;
     dquote; "y"%string; dquote; ":[2]}"%string].



(** [InvalidInput]: the call raised [ValueError]. *)
Definition invalid_input (o : outcome pyval) : bool :=
  match o with
  | Raise e => isinstance_ValueError e
  | Return _ => false
  end.

(** [ComputationError]: the call raised [RuntimeError]. *)
Definition computation_error (o : outcome pyval) : bool :=
  match o with
  | Raise e => isinstance_RuntimeError e
  | Return _ => false
  end.

(** What passing the three checks of either regression function means. *)
Definition validated (x y : pyval) : Prop :=
  exists xl yl,
    x = PList xl /\ y = PList yl /\
    forallb isinstance_int_float xl = true /\
    forallb isinstance_int_float yl = true /\
    List.length xl = List.length yl.

(** ** The specification's formulas *)

(** [sum over k of coefficients[k] * x^k], the coefficients read from
    low to high degree, starting at exponent [k]. *)
Fixpoint poly_terms (k : nat) (coefficients : list R) (x : R) : R :=
  match coefficients with
  | [] => 0
  | c :: cs => c * x ^ k + poly_terms (S k) cs x
  end.

Definition predicted (coefficients : list R) (x : R) : R :=
  poly_terms 0 coefficients x.

(** Residual sum of squares [sum (y_i - p(x_i))^2]. *)
Definition rss (coefficients : list R) (xs ys : list R) : R :=
  rsum (map (fun p => (snd p - predicted coefficients (fst p)) ^ 2)
            (combine xs ys)).

(** [sqrt(mean((y_i - predicted_i)^2))] over all samples. *)
Definition rmse_spec (coefficients : list R) (xs ys : list R) : R :=
  sqrt (rss coefficients xs ys / INR (List.length xs)).

Definition mean (ys : list R) : R := rsum ys / INR (List.length ys).

(** The values that are not numbers of any kind. *)
Definition non_number (v : pyval) : Prop :=
  v = PNone \/ (exists s, v = PStr s) \/ (exists l, v = PList l)
  \/ (exists d, v = PDict d).

(** An [int], a [float] (finite or not) or a [bool]. *)
Definition number_like (v : pyval) : Prop :=
  (exists z, v = PInt z) \/ (exists f, v = PFloat f) \/ (exists b, v = PBool b).

Definition floats (l : list R) : list pyval :=
  map (fun c => PFloat (Finite c)) l.

(** ** The monolithic lambda_function.py *)

(** [my-regression-app/lambda_function.py] holds its own copy of the two
    regression functions, the two Flask routes and the handler.  The copy
    differs in one expression: its [RuntimeError] is built from a single
    formatted string, the prefix followed by [str(e)], so it prints as
    that string and not as a tuple of two arguments. *)
Module Monolith.

(** What is raised: an exception as before, or the [RuntimeError] of one
    formatted string. *)
Inductive raised : Type :=
| Raised (e : exn)
| RuntimeErrorStr (msg : string).

Inductive result (A : Type) : Type :=
| Ok (a : A)
| Err (r : raised).

Arguments Ok {A} a.
Arguments Err {A} r.

Definition bind {A B : Type} (m : result A) (k : A -> result B) : result B :=
  match m with
  | Ok a => k a
  | Err r => Err r
  end.

(** A call into code that raises the exceptions of [exn]. *)
Definition call {A : Type} (o : outcome A) : result A :=
  match o with
  | Return a => Ok a
  | Raise e => Err (Raised e)
  end.

Declare Scope mono_scope.
Delimit Scope mono_scope with mono.
Notation "x <- m ;; k" := (bind m (fun x => k))
  (at level 61, m at next level, right associativity) : mono_scope.

Definition isinstance_ValueError (r : raised) : bool :=
  match r with
  | Raised e => isinstance_ValueError e
  | RuntimeErrorStr _ => false
  end.

Definition isinstance_JSONDecodeError (r : raised) : bool :=
  match r with
  | Raised e => isinstance_JSONDecodeError e
  | RuntimeErrorStr _ => false
  end.

Definition isinstance_KeyError (r : raised) : bool :=
  match r with
  | Raised e => isinstance_KeyError e
  | RuntimeErrorStr _ => false
  end.

Definition isinstance_RuntimeError (r : raised) : bool :=
  match r with
  | Raised e => isinstance_RuntimeError e
  | RuntimeErrorStr _ => true
  end.

Definition str_raised (r : raised) : string :=
  match r with
  | Raised e => str_exn e
  | RuntimeErrorStr msg => msg
  end.

Definition linear_regression (x y : pyval) : result pyval :=
  if negb (isinstance_list x) || negb (isinstance_list y) then
    Err (Raised (ValueError "Input arguments 'x' and 'y' must be lists."))
  else if negb (forallb isinstance_int_float (elements x))
          || negb (forallb isinstance_int_float (elements y)) then
    Err (Raised (ValueError "Input lists 'x' and 'y' must contain numbers."))
  else if negb (Nat.eqb (len x) (len y)) then
    Err (Raised (ValueError "Input lists 'x' and 'y' must have the same length."))
  else if Nat.ltb (len x) 2 then
    Ok (fit_result [PInt 0; PInt 0] (PInt 0))
  else
    match
      (a <- arrays x y ;;
       let (xs, ys) := a in
       match polyfit xs ys 1 with
       | [p1; p0] =>
           let y_predicted := polyval xs [p0; p1] in
           let rmse := sqrt (mean_squared_error ys y_predicted) in
           Return (fit_result [PFloat (Finite p0); PFloat (Finite p1)]
                              (PFloat (Finite rmse)))
       | _ => Raise (ValueError "wrong number of values to unpack")
       end)%py
    with
    | Return r => Ok r
    | Raise e =>
        Err (RuntimeErrorStr
               (String.append "Error during linear regression: " (str_exn e)))
    end.

Definition quadratic_regression (x y : pyval) : result pyval :=
  if negb (isinstance_list x) || negb (isinstance_list y) then
    Err (Raised (ValueError "Input arguments 'x' and 'y' must be lists."))
  else if negb (forallb isinstance_int_float (elements x))
          || negb (forallb isinstance_int_float (elements y)) then
    Err (Raised (ValueError "Input lists 'x' and 'y' must contain numbers."))
  else if negb (Nat.eqb (len x) (len y)) then
    Err (Raised (ValueError "Input lists 'x' and 'y' must have the same length."))
  else if Nat.ltb (len x) 3 then
    Ok (fit_result [PInt 0; PInt 0; PInt 0] (PInt 0))
  else
    match
      (a <- arrays x y ;;
       let (xs, ys) := a in
       match polyfit xs ys 2 with
       | [p2; p1; p0] =>
           let y_predicted := polyval xs [p0; p1; p2] in
           let rmse := sqrt (mean_squared_error ys y_predicted) in
           Return (fit_result
                     [PFloat (Finite p0); PFloat (Finite p1); PFloat (Finite p2)]
                     (PFloat (Finite rmse)))
       | _ => Raise (ValueError "wrong number of values to unpack")
       end)%py
    with
    | Return r => Ok r
    | Raise e =>
        Err (RuntimeErrorStr
               (String.append "Error during quadratic regression: " (str_exn e)))
    end.

Definition flask_except (r : raised) : response :=
  if isinstance_ValueError r then json_response 400 (error_body (str_raised r))
  else if isinstance_RuntimeError r then
    json_response 500 (error_body (str_raised r))
  else json_response 500
         (error_body (String.append "Internal server error: " (str_raised r))).

Definition flask_route (regression : pyval -> pyval -> result pyval)
  (payload : string) : response :=
  match
    (data <- call (get_json payload) ;;
     if negb (truthy data) then
       Ok (json_response 400 (error_body "Request body must be JSON"))
     else
       x <- call (get data "x") ;;
       y <- call (get data "y") ;;
       if (is_None x || is_None y)%bool then
         Ok (json_response 400 (error_body missing_fields))
       else
         result <- regression x y ;;
         Ok (json_response 200 result))%mono
  with
  | Ok r => r
  | Err r => flask_except r
  end.

Definition linear (payload : string) : response :=
  flask_route linear_regression payload.

Definition quadratic (payload : string) : response :=
  flask_route quadratic_regression payload.

Definition handler_except (r : raised) : response :=
  if (isinstance_ValueError r || isinstance_KeyError r)%bool then
    json_response 400 (error_body (str_raised r))
  else if isinstance_JSONDecodeError r then
    json_response 400
      (error_body (String.append "Invalid JSON in request body: " (str_raised r)))
  else if isinstance_RuntimeError r then
    json_response 500 (error_body (str_raised r))
  else
    json_response 500
      (error_body (String.append "Internal Server Error: " (str_raised r))).

Definition handler (event : dict) : response :=
  match
    (raw <- call (getitem event "body") ;;
     body <- call (json_loads (py_or raw (PStr "{}"))) ;;
     x <- call (get body "x") ;;
     y <- call (get body "y") ;;
     routeKey <- call (getitem event "routeKey") ;;
     if eq_str routeKey "POST /linear" then
       result <- linear_regression x y ;;
       Ok (json_response 200 result)
     else
       routeKey' <- call (getitem event "routeKey") ;;
       if eq_str routeKey' "POST /quadratic" then
         result <- quadratic_regression x y ;;
         Ok (json_response 200 result)
       else
         Ok (json_response 404 (error_body "Not Found")))%mono
  with
  | Ok r => r
  | Err r => handler_except r
  end.

(** An outcome of [myfit.py] as the monolithic copy raises it: the
    two-argument [RuntimeError] becomes the formatted string. *)
Definition as_monolith (prefix : string) (o : outcome pyval) : result pyval :=
  match o with
  | Return r => Ok r
  | Raise (RuntimeError _ cause) =>
      Err (RuntimeErrorStr (String.append prefix (str_exn cause)))
  | Raise e => Err (Raised e)
  end.

End Monolith.

(** ** Vocabulary of the further properties *)

(** A response is a success, carrying a fit result, or a failure,
    carrying one error message. *)
Definition well_formed_response (allowed : list Z) (r : response) : Prop :=
  headers r = json_headers
  /\ In (statusCode r) allowed
  /\ ((statusCode r = 200%Z /\ exists params rmse, body r = fit_result params rmse)
      \/ (statusCode r <> 200%Z /\ exists msg, body r = error_body msg)).

(** The RMSE field of a result: the integer 0 of the short circuit or a
    finite float that is not negative. *)
Definition rmse_value (v : pyval) : Prop :=
  v = PInt 0 \/ exists r, v = PFloat (Finite r) /\ 0 <= r.

(** The answer both transports give to an outcome of a regression
    function. *)
Definition answer (o : outcome pyval) : response :=
  match o with
  | Return result => json_response 200 result
  | Raise e =>
      json_response (if invalid_input o then 400 else 500)
                    (error_body (str_exn e))
  end.

(** Two responses with the same status code and headers, and the same
    body unless the status is 500. *)
Definition same_up_to_500_text (r1 r2 : response) : Prop :=
  statusCode r1 = statusCode r2
  /\ headers r1 = headers r2
  /\ (statusCode r2 <> 500%Z -> r1 = r2).

(** [d.get(k)] on a dict. *)
Definition dict_get (d : dict) (k : string) : pyval :=
  match lookup k d with
  | Some a => a
  | None => PNone
  end.

(** ** Proof automation *)

(** Unfold the sums of the normal equations on a literal list. *)
Ltac sums :=
  unfold power_sum, moment, det3;
  cbn [map rsum fold_right pow combine fst snd].

(** One step of a sum over a list, keeping the tail sum folded. *)
Ltac rsum_step :=
  cbn [map rsum fold_right] in *;
  repeat match goal with
         | |- context [fold_right Rplus 0 ?l] =>
             change (fold_right Rplus 0 l) with (rsum l)
         | H : context [fold_right Rplus 0 ?l] |- _ =>
             change (fold_right Rplus 0 l) with (rsum l) in H
         end.

(** * Validation *)

Section Validation.

Variables xl yl : list pyval.

Lemma linear_regression_not_numbers :
  forallb isinstance_int_float xl && forallb isinstance_int_float yl = false ->
  linear_regression (PList xl) (PList yl)
  = Raise (ValueError "Input lists 'x' and 'y' must contain numbers.").
Proof.
  intros H. unfold linear_regression. cbn [isinstance_list negb orb elements].
  rewrite <- negb_andb, H. reflexivity.
Qed.

Lemma quadratic_regression_not_numbers :
  forallb isinstance_int_float xl && forallb isinstance_int_float yl = false ->
  quadratic_regression (PList xl) (PList yl)
  = Raise (ValueError "Input lists 'x' and 'y' must contain numbers.").
Proof.
  intros H. unfold quadratic_regression. cbn [isinstance_list negb orb elements].
  rewrite <- negb_andb, H. reflexivity.
Qed.

Hypothesis numbers_x : forallb isinstance_int_float xl = true.
Hypothesis numbers_y : forallb isinstance_int_float yl = true.

Lemma linear_regression_lengths_differ :
  List.length xl <> List.length yl ->
  linear_regression (PList xl) (PList yl)
  = Raise (ValueError "Input lists 'x' and 'y' must have the same length.").
Proof.
  intros H. unfold linear_regression, len.
  cbn [isinstance_list negb orb elements]. rewrite numbers_x, numbers_y.
  apply Nat.eqb_neq in H. rewrite H. reflexivity.
Qed.

Lemma quadratic_regression_lengths_differ :
  List.length xl <> List.length yl ->
  quadratic_regression (PList xl) (PList yl)
  = Raise (ValueError "Input lists 'x' and 'y' must have the same length.").
Proof.
  intros H. unfold quadratic_regression, len.
  cbn [isinstance_list negb orb elements]. rewrite numbers_x, numbers_y.
  apply Nat.eqb_neq in H. rewrite H. reflexivity.
Qed.

Hypothesis same_length : List.length xl = List.length yl.

(** Past the three checks, [linear_regression] is its short circuit or
    its [try] block. *)
Lemma linear_regression_checked :
  linear_regression (PList xl) (PList yl)
  = if Nat.ltb (List.length xl) 2 then
      Return (fit_result [PInt 0; PInt 0] (PInt 0))
    else
      try_except
        (a <- arrays (PList xl) (PList yl) ;;
         let (xs, ys) := a in
         match polyfit xs ys 1 with
         | [p1; p0] =>
             Return (fit_result [PFloat (Finite p0); PFloat (Finite p1)]
                       (PFloat (Finite
                          (sqrt (mean_squared_error ys (polyval xs [p0; p1]))))))
         | _ => Raise (ValueError "wrong number of values to unpack")
         end)
        (fun e => Raise (RuntimeError "Error during linear regression: %s" e)).
Proof.
  unfold linear_regression, len.
  cbn [isinstance_list negb orb elements]. rewrite numbers_x, numbers_y.
  rewrite same_length, Nat.eqb_refl. reflexivity.
Qed.

Lemma quadratic_regression_checked :
  quadratic_regression (PList xl) (PList yl)
  = if Nat.ltb (List.length xl) 3 then
      Return (fit_result [PInt 0; PInt 0; PInt 0] (PInt 0))
    else
      try_except
        (a <- arrays (PList xl) (PList yl) ;;
         let (xs, ys) := a in
         match polyfit xs ys 2 with
         | [p2; p1; p0] =>
             Return (fit_result
                       [PFloat (Finite p0); PFloat (Finite p1); PFloat (Finite p2)]
                       (PFloat (Finite
                          (sqrt (mean_squared_error ys (polyval xs [p0; p1; p2]))))))
         | _ => Raise (ValueError "wrong number of values to unpack")
         end)
        (fun e => Raise (RuntimeError "Error during quadratic regression: %s" e)).
Proof.
  unfold quadratic_regression, len.
  cbn [isinstance_list negb orb elements]. rewrite numbers_x, numbers_y.
  rewrite same_length, Nat.eqb_refl. reflexivity.
Qed.

End Validation.

Lemma isinstance_int_float_number_like (v : pyval) :
  isinstance_int_float v = true <-> number_like v.
Proof.
  unfold number_like. split.
  - destruct v; cbn; intros H; try discriminate; eauto.
  - intros [[z ->] | [[f ->] | [b ->]]]; reflexivity.
Qed.

Lemma isinstance_int_float_non_number (v : pyval) :
  isinstance_int_float v = false <-> non_number v.
Proof.
  unfold non_number. split.
  - destruct v; cbn; intros H; try discriminate; eauto 6.
  - intros [-> | [[s ->] | [[l ->] | [d ->]]]]; reflexivity.
Qed.

Lemma forallb_number_like (l : list pyval) :
  forallb isinstance_int_float l = true <-> (forall v, In v l -> number_like v).
Proof.
  rewrite forallb_forall. split; intros H v Hv.
  - apply isinstance_int_float_number_like, H, Hv.
  - apply isinstance_int_float_number_like, H, Hv.
Qed.

Lemma forallb_non_number (l : list pyval) (v : pyval) :
  In v l -> non_number v -> forallb isinstance_int_float l = false.
Proof.
  intros Hin Hv. apply isinstance_int_float_non_number in Hv.
  destruct (forallb isinstance_int_float l) eqn:E; [|reflexivity].
  rewrite forallb_forall in E. rewrite (E v Hin) in Hv. discriminate.
Qed.

(** A call that does not raise [ValueError] passed the three checks. *)
Lemma linear_regression_validated (x y : pyval) :
  invalid_input (linear_regression x y) = false -> validated x y.
Proof.
  unfold linear_regression, validated, len.
  destruct x as [| | | | |xl|]; try (cbn; discriminate).
  destruct y as [| | | | |yl|]; try (cbn; discriminate).
  cbn [isinstance_list negb orb elements].
  destruct (forallb isinstance_int_float xl) eqn:Ex; [|cbn; discriminate].
  destruct (forallb isinstance_int_float yl) eqn:Ey; [|cbn; discriminate].
  cbn [negb orb].
  destruct (Nat.eqb (List.length xl) (List.length yl)) eqn:El; [|cbn; discriminate].
  intros _. exists xl, yl. apply Nat.eqb_eq in El. auto.
Qed.

Lemma quadratic_regression_validated (x y : pyval) :
  invalid_input (quadratic_regression x y) = false -> validated x y.
Proof.
  unfold quadratic_regression, validated, len.
  destruct x as [| | | | |xl|]; try (cbn; discriminate).
  destruct y as [| | | | |yl|]; try (cbn; discriminate).
  cbn [isinstance_list negb orb elements].
  destruct (forallb isinstance_int_float xl) eqn:Ex; [|cbn; discriminate].
  destruct (forallb isinstance_int_float yl) eqn:Ey; [|cbn; discriminate].
  cbn [negb orb].
  destruct (Nat.eqb (List.length xl) (List.length yl)) eqn:El; [|cbn; discriminate].
  intros _. exists xl, yl. apply Nat.eqb_eq in El. auto.
Qed.

(** Conversely, past the checks the only exception is the [RuntimeError]
    of the [except] clause. *)
Lemma linear_regression_outcome (x y : pyval) :
  validated x y ->
  (exists r, linear_regression x y = Return r)
  \/ (exists e, linear_regression x y
                = Raise (RuntimeError "Error during linear regression: %s" e)).
Proof.
  intros (xl & yl & -> & -> & Hx & Hy & Hl).
  rewrite (linear_regression_checked xl yl Hx Hy Hl).
  destruct (Nat.ltb (List.length xl) 2); [left; eauto|].
  destruct (arrays (PList xl) (PList yl)) as [[xs ys]|e];
    cbn [bind try_except]; [|right; eauto].
  destruct (polyfit xs ys 1) as [|p1 [|p0 [|? ?]]]; cbn [try_except]; eauto.
Qed.

Lemma quadratic_regression_outcome (x y : pyval) :
  validated x y ->
  (exists r, quadratic_regression x y = Return r)
  \/ (exists e, quadratic_regression x y
                = Raise (RuntimeError "Error during quadratic regression: %s" e)).
Proof.
  intros (xl & yl & -> & -> & Hx & Hy & Hl).
  rewrite (quadratic_regression_checked xl yl Hx Hy Hl).
  destruct (Nat.ltb (List.length xl) 3); [left; eauto|].
  destruct (arrays (PList xl) (PList yl)) as [[xs ys]|e];
    cbn [bind try_except]; [|right; eauto].
  destruct (polyfit xs ys 2) as [|p2 [|p1 [|p0 [|? ?]]]]; cbn [try_except]; eauto.
Qed.

(** Every exception of the regression functions is a plain [ValueError]
    or a [RuntimeError]. *)
Lemma linear_regression_raises (x y : pyval) (e : exn) :
  linear_regression x y = Raise e ->
  (exists m, e = ValueError m) \/ (exists f c, e = RuntimeError f c).
Proof.
  unfold linear_regression, try_except.
  repeat match goal with
         | |- context [if ?b then _ else _] => destruct b
         end;
    try (intros H; inversion H; subst; eauto; fail).
  destruct (bind _ _); intros H; inversion H; eauto.
Qed.

Lemma quadratic_regression_raises (x y : pyval) (e : exn) :
  quadratic_regression x y = Raise e ->
  (exists m, e = ValueError m) \/ (exists f c, e = RuntimeError f c).
Proof.
  unfold quadratic_regression, try_except.
  repeat match goal with
         | |- context [if ?b then _ else _] => destruct b
         end;
    try (intros H; inversion H; subst; eauto; fail).
  destruct (bind _ _); intros H; inversion H; eauto.
Qed.

(** * Claims on validation and the short circuit *)

(** C6: for every otherwise-valid input (two lists of numbers of equal
    length) with fewer than 2 samples, [linear_regression] returns exactly
    [{params: [0, 0], RMSE: 0}]; with fewer than 3 samples,
    [quadratic_regression] returns exactly [{params: [0, 0, 0], RMSE: 0}].
    The result does not depend on the values: RMSE is 0 whatever the
    residuals are, and no fit is attempted. *)
Theorem short_circuit_defaults (xl yl : list pyval) :
  (forall v, In v xl -> number_like v) ->
  (forall v, In v yl -> number_like v) ->
  List.length xl = List.length yl ->
  ((List.length xl < 2)%nat ->
   linear_regression (PList xl) (PList yl)
   = Return (PDict [("params"%string, PList [PInt 0; PInt 0]);
                    ("RMSE"%string, PInt 0)]))
  /\ ((List.length xl < 3)%nat ->
      quadratic_regression (PList xl) (PList yl)
      = Return (PDict [("params"%string, PList [PInt 0; PInt 0; PInt 0]);
                       ("RMSE"%string, PInt 0)])).
Proof.
  intros Hx Hy Hl.
  apply forallb_number_like in Hx. apply forallb_number_like in Hy.
  split; intros Hn.
  - rewrite (linear_regression_checked xl yl Hx Hy Hl).
    apply Nat.ltb_lt in Hn. rewrite Hn. reflexivity.
  - rewrite (quadratic_regression_checked xl yl Hx Hy Hl).
    apply Nat.ltb_lt in Hn. rewrite Hn. reflexivity.
Qed.

Lemma short_circuit_defaults_witness :
  linear_regression (PList [PInt 5]) (PList [PFloat (Finite 7)])
  = Return (PDict [("params"%string, PList [PInt 0; PInt 0]);
                   ("RMSE"%string, PInt 0)])
  /\ quadratic_regression (PList [PInt 1; PInt 2]) (PList [PInt 3; PInt 5])
     = Return (PDict [("params"%string, PList [PInt 0; PInt 0; PInt 0]);
                      ("RMSE"%string, PInt 0)]).
Proof.
  split.
  - apply (short_circuit_defaults [PInt 5] [PFloat (Finite 7)]).
    + intros v [<- | []]. left. eexists. reflexivity.
    + intros v [<- | []]. right. left. eexists. reflexivity.
    + reflexivity.
    + simpl. lia.
  - apply (short_circuit_defaults [PInt 1; PInt 2] [PInt 3; PInt 5]).
    + intros v [<- | [<- | []]]; left; eexists; reflexivity.
    + intros v [<- | [<- | []]]; left; eexists; reflexivity.
    + reflexivity.
    + simpl. lia.
Defined.

(** C7, as stated, fails at the empty sample set: two empty lists pass
    the three checks (the short circuit answers them), yet their length
    is not at least 1. *)
Lemma empty_sample_set_is_accepted :
  ~ (invalid_input (linear_regression (PList []) (PList [])) = false ->
     len (PList []) = len (PList []) /\ (1 <= len (PList []))%nat).
Proof.
  intros H. destruct (H eq_refl) as [_ H1]. cbn in H1. lia.
Qed.

(** C7, amended: an input that either regression function does not
    reject with [ValueError] consists of two lists of equal length, which
    may be 0; and two lists of different lengths are rejected with
    [ValueError] by both functions. *)
Theorem validated_lengths (x y : pyval) :
  (invalid_input (linear_regression x y) = false
   \/ invalid_input (quadratic_regression x y) = false ->
   isinstance_list x = true /\ isinstance_list y = true /\ len x = len y)
  /\ (isinstance_list x = true -> isinstance_list y = true -> len x <> len y ->
      invalid_input (linear_regression x y) = true
      /\ invalid_input (quadratic_regression x y) = true).
Proof.
  split.
  - intros H.
    assert (V : validated x y).
    { destruct H as [H | H];
        [apply linear_regression_validated | apply quadratic_regression_validated];
        exact H. }
    destruct V as (xl & yl & -> & -> & _ & _ & Hl). cbn. auto.
  - destruct x as [| | | | |xl|]; try discriminate.
    destruct y as [| | | | |yl|]; try discriminate.
    intros _ _ Hl. unfold len in Hl. cbn [elements] in Hl.
    destruct (forallb isinstance_int_float xl && forallb isinstance_int_float yl)
      eqn:E.
    + apply andb_prop in E. destruct E as [Ex Ey].
      rewrite (linear_regression_lengths_differ xl yl Ex Ey Hl).
      rewrite (quadratic_regression_lengths_differ xl yl Ex Ey Hl).
      split; reflexivity.
    + rewrite (linear_regression_not_numbers xl yl E).
      rewrite (quadratic_regression_not_numbers xl yl E).
      split; reflexivity.
Qed.

Lemma validated_lengths_witness :
  (isinstance_list (PList []) = true /\ isinstance_list (PList []) = true
   /\ len (PList []) = len (PList []))
  /\ (invalid_input (linear_regression (ints [1; 2]) (ints [3])) = true
      /\ invalid_input (quadratic_regression (ints [1; 2]) (ints [3])) = true)%Z.
Proof.
  split.
  - apply (validated_lengths (PList []) (PList [])).
    left. reflexivity.
  - apply (validated_lengths (ints [1; 2]%Z) (ints [3]%Z)).
    + reflexivity.
    + reflexivity.
    + cbn. lia.
Defined.

(** C3, as stated, fails for booleans and for non-finite floats: a
    boolean is an [int] and [nan] and the infinities are [float]s, so the
    element check lets them through. *)
Lemma booleans_and_non_finite_floats_are_accepted :
  linear_regression (PList [PBool true]) (PList [PInt 1])
  = Return (fit_result [PInt 0; PInt 0] (PInt 0))
  /\ quadratic_regression (PList [PFloat NaN; PFloat (Inf false)])
                          (PList [PInt 1; PInt 2])
     = Return (fit_result [PInt 0; PInt 0; PInt 0] (PInt 0)).
Proof. split; reflexivity. Qed.

(** C3, amended: when some element of [x] or [y] is not a number at all
    (a string, a null, a list or an object), both regression functions
    raise [ValueError]; when every element is an integer, a float (finite
    or not) or a boolean and the lengths agree, neither raises
    [ValueError]. *)
Theorem element_check (xl yl : list pyval) :
  ((exists v, In v (xl ++ yl) /\ non_number v) ->
   linear_regression (PList xl) (PList yl)
   = Raise (ValueError "Input lists 'x' and 'y' must contain numbers.")
   /\ quadratic_regression (PList xl) (PList yl)
      = Raise (ValueError "Input lists 'x' and 'y' must contain numbers."))
  /\ ((forall v, In v (xl ++ yl) -> number_like v) ->
      List.length xl = List.length yl ->
      invalid_input (linear_regression (PList xl) (PList yl)) = false
      /\ invalid_input (quadratic_regression (PList xl) (PList yl)) = false).
Proof.
  split.
  - intros (v & Hin & Hv).
    assert (E : forallb isinstance_int_float xl
                && forallb isinstance_int_float yl = false).
    { apply in_app_or in Hin. apply andb_false_iff.
      destruct Hin as [Hin | Hin]; [left | right];
        exact (forallb_non_number _ v Hin Hv). }
    split.
    + apply linear_regression_not_numbers, E.
    + apply quadratic_regression_not_numbers, E.
  - intros Hn Hl.
    assert (V : validated (PList xl) (PList yl)).
    { exists xl, yl. repeat split; try assumption;
        apply forallb_number_like; intros v Hv; apply Hn, in_or_app; auto. }
    split.
    + destruct (linear_regression_outcome _ _ V) as [[r ->] | [e ->]]; reflexivity.
    + destruct (quadratic_regression_outcome _ _ V) as [[r ->] | [e ->]]; reflexivity.
Qed.

Lemma element_check_witness :
  (linear_regression (PList [PStr "a"; PInt 2]) (PList [PInt 1; PNone])
   = Raise (ValueError "Input lists 'x' and 'y' must contain numbers.")
   /\ quadratic_regression (PList [PStr "a"; PInt 2]) (PList [PInt 1; PNone])
      = Raise (ValueError "Input lists 'x' and 'y' must contain numbers."))
  /\ (invalid_input (linear_regression (PList [PBool true; PFloat NaN])
                                       (PList [PInt 1; PFloat (Finite 2)]))
      = false
      /\ invalid_input (quadratic_regression (PList [PBool true; PFloat NaN])
                                             (PList [PInt 1; PFloat (Finite 2)]))
         = false).
Proof.
  split.
  - apply (element_check [PStr "a"; PInt 2] [PInt 1; PNone]).
    exists PNone. split.
    + simpl. auto.
    + left. reflexivity.
  - apply (element_check [PBool true; PFloat NaN] [PInt 1; PFloat (Finite 2)]).
    + simpl. intros v [<- | [<- | [<- | [<- | []]]]]; unfold number_like; eauto.
    + reflexivity.
Defined.

(** * Claims on the two transports *)

Lemma loads_empty_document : Json.loads "" = None.
Proof. reflexivity. Qed.

Lemma loads_empty_object : Json.loads "{}" = Some (PDict []).
Proof. reflexivity. Qed.

(** C10: in the Flask adapter a request whose body parses to a falsy JSON
    value, the empty object included, is answered with status 400 and the
    message [Request body must be JSON] by both routes; the missing-field
    check and the regression functions, which answer with other messages,
    are not reached. *)
Theorem flask_rejects_falsy_body (payload : string) (data : pyval) :
  get_json payload = Return data ->
  truthy data = false ->
  linear payload = json_response 400 (error_body "Request body must be JSON")
  /\ quadratic payload
     = json_response 400 (error_body "Request body must be JSON").
Proof.
  intros Hj Ht. unfold linear, quadratic, flask_route.
  rewrite Hj. cbn [bind]. rewrite Ht. split; reflexivity.
Qed.

Lemma flask_rejects_falsy_body_witness :
  linear "{}" = json_response 400 (error_body "Request body must be JSON")
  /\ quadratic "{}"
     = json_response 400 (error_body "Request body must be JSON").
Proof.
  apply (flask_rejects_falsy_body "{}" (PDict [])); reflexivity.
Defined.

(** C8, as stated, fails for an absent body: without the key [body] the
    handler answers 400 with the text of the [KeyError], where the body
    [{}] leads to 404 on an unknown route and, on [POST /linear], to 400
    with the message of the list check. *)
Lemma absent_body_is_not_empty_object :
  handler [("routeKey"%string, PStr "POST /other")]
  = json_response 400 (error_body "'body'")
  /\ handler (http_event "POST /other" "{}")
     = json_response 404 (error_body "Not Found")
  /\ handler [("routeKey"%string, PStr "POST /linear")]
     = json_response 400 (error_body "'body'")
  /\ handler (http_event "POST /linear" "{}")
     = json_response 400
         (error_body "Input arguments 'x' and 'y' must be lists.").
Proof. repeat split; reflexivity. Qed.

(** C8, amended: for every event whose [body] key is present with an
    empty value (the empty string, null, or any other falsy value), the
    handler answers exactly as for the same event with body [{}]: same
    status code, same response body, same headers.  An event without the
    key [body] is answered with status 400 and the text of the
    [KeyError]. *)
Theorem empty_body_is_empty_object (event event' : dict) (raw : pyval) :
  (lookup "body" event = Some raw ->
   truthy raw = false ->
   lookup "body" event' = Some (PStr "{}") ->
   lookup "routeKey" event' = lookup "routeKey" event ->
   handler event = handler event')
  /\ (lookup "body" event = None ->
      handler event = json_response 400 (error_body "'body'")).
Proof.
  split.
  - intros Hb Ht Hb' Hr. unfold handler, getitem.
    rewrite Hb, Hb', Hr. cbn [bind]. unfold py_or. rewrite Ht.
    reflexivity.
  - intros Hb. unfold handler, getitem. rewrite Hb. reflexivity.
Qed.

Lemma empty_body_is_empty_object_witness :
  handler [("routeKey"%string, PStr "POST /linear"); ("body"%string, PStr "")]
  = handler (http_event "POST /linear" "{}")
  /\ handler [("body"%string, PNone); ("routeKey"%string, PStr "POST /quadratic")]
     = handler (http_event "POST /quadratic" "{}")
  /\ handler [("routeKey"%string, PStr "POST /linear")]
     = json_response 400 (error_body "'body'").
Proof.
  split; [|split].
  - apply (empty_body_is_empty_object _ _ (PStr "")); reflexivity.
  - apply (empty_body_is_empty_object _ _ PNone); reflexivity.
  - apply (empty_body_is_empty_object _ [] PNone). reflexivity.
Defined.




Lemma regressions_of_None (x y : pyval) :
  (is_None x || is_None y)%bool = true ->
  linear_regression x y
  = Raise (ValueError "Input arguments 'x' and 'y' must be lists.")
  /\ quadratic_regression x y
     = Raise (ValueError "Input arguments 'x' and 'y' must be lists.").
Proof.
  intros H. unfold linear_regression, quadratic_regression.
  destruct x; try (split; reflexivity); destruct y; try (split; reflexivity);
    discriminate.
Qed.

(** The agreement of the two front ends holds on no other payload that
    parses: a payload that is not an object, or that lacks a non-null
    [x] or [y], is answered with different messages or different status
    codes on both routes. *)
Lemma front_ends_agree_only_on_samples (payload : string) (v : pyval) :
  Json.loads payload = Some v ->
  handler (http_event "POST /linear" payload) = linear payload
  \/ handler (http_event "POST /quadratic" payload) = quadratic payload ->
  exists d x y,
    v = PDict d /\ lookup "x" d = Some x /\ lookup "y" d = Some y
    /\ x <> PNone /\ y <> PNone.
Proof.
  intros Hp.
  assert (Hraw : py_or (PStr payload) (PStr "{}") = PStr payload).
  { destruct payload; [rewrite loads_empty_document in Hp; discriminate|].
    reflexivity. }
  unfold handler, linear, quadratic, flask_route, http_event, getitem, get_json.
  cbn [lookup String.eqb Ascii.eqb Bool.eqb bind eq_str].
  rewrite Hraw. cbn [json_loads]. rewrite Hp. cbn [bind].
  destruct v as [| b | z | f | s | l | d].
  all: try (destruct (negb (truthy _)); cbn; intros [H | H]; discriminate H).
  cbn [get bind].
  destruct (negb (truthy (PDict d))) eqn:Ht.
  - destruct (regressions_of_None PNone PNone eq_refl) as [El Eq].
    assert (Ed : d = []) by (destruct d; [reflexivity | discriminate]).
    subst d. cbn [lookup]. rewrite El, Eq.
    cbn. intros [H | H]; discriminate H.
  - set (x := match lookup "x" d with Some a => a | None => PNone end).
    set (y := match lookup "y" d with Some a => a | None => PNone end).
    destruct (is_None x || is_None y)%bool eqn:Hn.
    + destruct (regressions_of_None x y Hn) as [El Eq]. rewrite El, Eq.
      cbn. intros [H | H]; discriminate H.
    + intros _. apply orb_false_elim in Hn. destruct Hn as [Hx Hy].
      exists d, x, y. split; [reflexivity|].
      unfold x, y in *.
      destruct (lookup "x" d) as [a |]; [|discriminate].
      destruct (lookup "y" d) as [b |]; [|discriminate].
      repeat split; try reflexivity; intros ->; discriminate.
Qed.

(** * The numeric kernel *)

Lemma finite_array_length (l : list pyval) (rs : list R) :
  finite_array l = Some rs -> List.length rs = List.length l.
Proof.
  revert rs. induction l as [|v l IH]; intros rs H; cbn in H.
  - inversion H. reflexivity.
  - destruct (to_float v) as [[r | | ?] |]; try discriminate.
    destruct (finite_array l) as [rs'|]; try discriminate.
    inversion H. cbn. rewrite (IH rs' eq_refl). reflexivity.
Qed.

(** Only numbers have a finite float. *)
Lemma finite_array_numbers (l : list pyval) (rs : list R) :
  finite_array l = Some rs -> forallb isinstance_int_float l = true.
Proof.
  revert rs. induction l as [|v l IH]; intros rs H; cbn in H; [reflexivity|].
  destruct (to_float v) as [[r | | ?] |] eqn:Ev; try discriminate.
  destruct (finite_array l) as [rs'|]; try discriminate.
  cbn. rewrite (IH rs' eq_refl), andb_true_r.
  destruct v; try reflexivity; cbn in Ev; discriminate.
Qed.

(** Horner's rule computes the sum of the terms [c_k * x^k]. *)
Lemma poly_terms_horner (cs : list R) (x : R) (k : nat) :
  poly_terms k cs x = x ^ k * polyval1 x cs.
Proof.
  revert k. induction cs as [|c cs IH]; intros k; cbn.
  - ring.
  - rewrite IH. change (polyval1 x cs) with (fold_right (fun ck acc => ck + acc * x) 0 cs).
    cbn. ring.
Qed.

Lemma predicted_polyval1 (cs : list R) (x : R) :
  predicted cs x = polyval1 x cs.
Proof. unfold predicted. rewrite poly_terms_horner. cbn. ring. Qed.

(** The squared error that [mean_squared_error] averages is the residual
    sum of squares of the coefficients given to [polyval]. *)
Lemma squared_error_rss (cs xs ys : list R) :
  rsum (map (fun p => (fst p - snd p) ^ 2) (combine ys (polyval xs cs)))
  = rss cs xs ys.
Proof.
  unfold rss, polyval. revert ys.
  induction xs as [|x xs IH]; intros [|y ys]; cbn [map combine rsum fold_right];
    try reflexivity.
  fold (rsum (map (fun p => (fst p - snd p) ^ 2)
                  (combine ys (map (fun x0 => polyval1 x0 cs) xs)))).
  fold (rsum (map (fun p => (snd p - predicted cs (fst p)) ^ 2) (combine xs ys))).
  rewrite IH, predicted_polyval1. reflexivity.
Qed.

Lemma rmse_of_polyval (cs xs ys : list R) :
  List.length xs = List.length ys ->
  sqrt (mean_squared_error ys (polyval xs cs)) = rmse_spec cs xs ys.
Proof.
  intros Hl. unfold mean_squared_error, rmse_spec.
  rewrite squared_error_rss, Hl. reflexivity.
Qed.

Lemma arrays_spec (xl yl : list pyval) (xs ys : list R) :
  arrays (PList xl) (PList yl) = Return (xs, ys) ->
  finite_array xl = Some xs /\ finite_array yl = Some ys.
Proof.
  unfold arrays. cbn [elements].
  destruct (finite_array xl), (finite_array yl); intros H; inversion H; auto.
Qed.

(** * Claim on the RMSE *)

(** C9: for every successful fit past the short circuit, linear or
    quadratic, the returned RMSE is [sqrt(mean((y_i - predicted_i)^2))]
    over all samples, where [predicted_i = sum_k coefficients[k] * x_i^k]
    is computed from the returned coefficient sequence read from low to
    high degree. *)
Theorem rmse_of_returned_coefficients
  (x y : pyval) (params : list pyval) (rmse : pyval) :
  (linear_regression x y = Return (fit_result params rmse) /\ (2 <= len x)%nat)
  \/ (quadratic_regression x y = Return (fit_result params rmse)
      /\ (3 <= len x)%nat) ->
  exists xs ys coefficients,
    finite_array (elements x) = Some xs
    /\ finite_array (elements y) = Some ys
    /\ params = floats coefficients
    /\ rmse = PFloat (Finite (rmse_spec coefficients xs ys)).
Proof.
  intros [[H Hn] | [H Hn]].
  - assert (V : invalid_input (linear_regression x y) = false)
      by (rewrite H; reflexivity).
    apply linear_regression_validated in V.
    destruct V as (xl & yl & -> & -> & Hx & Hy & Hl).
    rewrite (linear_regression_checked xl yl Hx Hy Hl) in H.
    unfold len in Hn. cbn [elements] in *.
    apply Nat.ltb_ge in Hn. rewrite Hn in H.
    destruct (arrays (PList xl) (PList yl)) as [[xs ys] | e] eqn:Ea;
      cbn [bind try_except] in H; [|discriminate].
    apply arrays_spec in Ea. destruct Ea as [Exs Eys].
    destruct (polyfit xs ys 1) as [|p1 [|p0 [|? ?]]];
      cbn [try_except] in H; try discriminate.
    inversion H. exists xs, ys, [p0; p1]. repeat split; try assumption.
    rewrite rmse_of_polyval; [reflexivity|].
    rewrite (finite_array_length _ _ Exs), (finite_array_length _ _ Eys). exact Hl.
  - assert (V : invalid_input (quadratic_regression x y) = false)
      by (rewrite H; reflexivity).
    apply quadratic_regression_validated in V.
    destruct V as (xl & yl & -> & -> & Hx & Hy & Hl).
    rewrite (quadratic_regression_checked xl yl Hx Hy Hl) in H.
    unfold len in Hn. cbn [elements] in *.
    apply Nat.ltb_ge in Hn. rewrite Hn in H.
    destruct (arrays (PList xl) (PList yl)) as [[xs ys] | e] eqn:Ea;
      cbn [bind try_except] in H; [|discriminate].
    apply arrays_spec in Ea. destruct Ea as [Exs Eys].
    destruct (polyfit xs ys 2) as [|p2 [|p1 [|p0 [|? ?]]]];
      cbn [try_except] in H; try discriminate.
    inversion H. exists xs, ys, [p0; p1; p2]. repeat split; try assumption.
    rewrite rmse_of_polyval; [reflexivity|].
    rewrite (finite_array_length _ _ Exs), (finite_array_length _ _ Eys). exact Hl.
Qed.

(** * Least squares *)

(** Sums over the samples, as sums over the list of pairs. *)
Lemma power_sum_combine (k : nat) (xs ys : list R) :
  List.length xs = List.length ys ->
  power_sum k xs = rsum (map (fun p => fst p ^ k) (combine xs ys)).
Proof.
  unfold power_sum. revert ys.
  induction xs as [|x xs IH]; intros [|y ys] Hl; try discriminate; [reflexivity|].
  cbn [map combine rsum fold_right fst]. f_equal. apply IH. now inversion Hl.
Qed.

Lemma rsum_squares_nonneg {A : Type} (f : A -> R) (l : list A) :
  0 <= rsum (map (fun a => f a ^ 2) l).
Proof.
  induction l as [|a l IH]; rsum_step; [lra|].
  pose proof (pow2_ge_0 (f a)). lra.
Qed.

Lemma rsum_squares_zero {A : Type} (f : A -> R) (l : list A) :
  rsum (map (fun a => f a ^ 2) l) = 0 -> forall a, In a l -> f a = 0.
Proof.
  induction l as [|b l IH]; intros H a Ha; [contradiction|].
  rsum_step.
  pose proof (rsum_squares_nonneg f l) as Hl.
  pose proof (pow2_ge_0 (f b)) as Hb.
  destruct Ha as [<- | Ha].
  - assert (E : f b ^ 2 = 0) by lra.
    apply Rsqr_0_uniq. unfold Rsqr. rewrite <- E. ring.
  - apply IH; [lra | exact Ha].
Qed.

Lemma centred_squares (A B : R) (xs : list R) :
  rsum (map (fun x => (A * x - B) ^ 2) xs)
  = A * A * power_sum 2 xs - 2 * A * B * power_sum 1 xs + B * B * power_sum 0 xs.
Proof.
  unfold power_sum. induction xs as [|x xs IH]; rsum_step.
  - ring.
  - rewrite IH. ring.
Qed.

Lemma power_sum_0 (xs : list R) : power_sum 0 xs = INR (List.length xs).
Proof.
  unfold power_sum. induction xs as [|x xs IH]; [reflexivity|].
  change (rsum (map (fun x => x ^ 0) (x :: xs)))
    with (x ^ 0 + rsum (map (fun x => x ^ 0) xs)).
  rewrite IH. cbn [List.length]. rewrite S_INR. cbn [pow]. ring.
Qed.

(** Two distinct abscissae make the normal equations of degree 1
    regular. *)
Lemma distinct_abscissae_full_rank (xs : list R) (u v : R) :
  In u xs -> In v xs -> u <> v ->
  power_sum 0 xs * power_sum 2 xs - power_sum 1 xs * power_sum 1 xs <> 0.
Proof.
  intros Hu Hv Huv HD.
  pose proof (centred_squares (power_sum 0 xs) (power_sum 1 xs) xs) as Hc.
  assert (Hz : rsum (map (fun x => (power_sum 0 xs * x - power_sum 1 xs) ^ 2) xs) = 0).
  { rewrite Hc.
    transitivity (power_sum 0 xs
                  * (power_sum 0 xs * power_sum 2 xs
                     - power_sum 1 xs * power_sum 1 xs));
      [ring | rewrite HD; ring]. }
  pose proof (rsum_squares_zero _ _ Hz u Hu) as Eu.
  pose proof (rsum_squares_zero _ _ Hz v Hv) as Ev.
  cbv beta in Eu, Ev.
  assert (Hn : 0 < power_sum 0 xs).
  { rewrite power_sum_0. apply lt_0_INR.
    destruct xs; [contradiction | cbn; lia]. }
  apply Huv. apply Rmult_eq_reg_l with (power_sum 0 xs); lra.
Qed.

Lemma power_sum_2_nonneg (xs : list R) : 0 <= power_sum 2 xs.
Proof. unfold power_sum. apply (rsum_squares_nonneg (fun x : R => x)). Qed.

(** Cauchy-Schwarz for the columns [1] and [x]. *)
Lemma power_sums_cauchy_schwarz (xs : list R) :
  power_sum 1 xs * power_sum 1 xs <= power_sum 0 xs * power_sum 2 xs.
Proof.
  pose proof (centred_squares (power_sum 0 xs) (power_sum 1 xs) xs) as Hc.
  pose proof (rsum_squares_nonneg
                (fun x => power_sum 0 xs * x - power_sum 1 xs) xs) as Hp.
  cbv beta in Hp. rewrite Hc in Hp.
  assert (Hq : 0 <= power_sum 0 xs
                    * (power_sum 0 xs * power_sum 2 xs
                       - power_sum 1 xs * power_sum 1 xs)) by lra.
  clear Hc Hp.
  destruct xs as [|x0 xs'].
  - unfold power_sum. cbn. lra.
  - assert (Hn : 0 < power_sum 0 (x0 :: xs')).
    { rewrite power_sum_0. apply lt_0_INR. cbn. lia. }
    nra.
Qed.

Lemma eps_pos : 0 < eps.
Proof. unfold eps. apply Rinv_0_lt_compat. apply pow_lt. lra. Qed.

Lemma rcond_nonneg (n : nat) : 0 <= rcond n.
Proof.
  unfold rcond. apply Rmult_le_pos; [apply pos_INR | apply Rlt_le, eps_pos].
Qed.

Lemma column_norm_pos (s : R) : 0 < s -> column_norm s = sqrt s /\ 0 < sqrt s.
Proof.
  intros H. unfold column_norm.
  destruct (Req_dec_T s 0); [lra|]. split; [reflexivity | apply sqrt_lt_R0, H].
Qed.

(** The square of the off-diagonal Gram entry. *)
Lemma gram1_square (xs : list R) :
  0 < power_sum 0 xs -> 0 < power_sum 2 xs ->
  gram1 xs * gram1 xs
  = power_sum 1 xs * power_sum 1 xs / (power_sum 0 xs * power_sum 2 xs).
Proof.
  intros H0 H2. unfold gram1.
  destruct (column_norm_pos _ H0) as [-> P0].
  destruct (column_norm_pos _ H2) as [-> P2].
  pose proof (sqrt_sqrt _ (Rlt_le _ _ H0)) as E0.
  pose proof (sqrt_sqrt _ (Rlt_le _ _ H2)) as E2.
  set (a := sqrt (power_sum 0 xs)) in *. set (b := sqrt (power_sum 2 xs)) in *.
  clearbody a b. rewrite <- E0, <- E2. field. split; lra.
Qed.

Lemma Rabs_lt_1_square (g : R) : Rabs g < 1 <-> g * g < 1.
Proof.
  unfold Rabs. destruct (Rcase_abs g); split; intros H; nra.
Qed.

(** With no singular value cut the normal equations are regular. *)
Lemma full_numerical_rank1_regular (xs : list R) :
  full_numerical_rank1 xs ->
  0 < power_sum 0 xs /\ 0 < power_sum 2 xs
  /\ 0 < power_sum 0 xs * power_sum 2 xs - power_sum 1 xs * power_sum 1 xs.
Proof.
  intros [H2 Hs]. unfold singular_values1 in Hs. cbn [fst snd] in Hs.
  assert (P2 : 0 < power_sum 2 xs).
  { pose proof (power_sum_2_nonneg xs). lra. }
  assert (P0 : 0 < power_sum 0 xs).
  { rewrite power_sum_0. apply lt_0_INR. destruct xs; [|cbn; lia].
    exfalso. apply H2. reflexivity. }
  split; [exact P0|]. split; [exact P2|].
  assert (Hg : Rabs (gram1 xs) < 1).
  { destruct (Rlt_dec (Rabs (gram1 xs)) 1) as [L | N]; [exact L|].
    exfalso. rewrite (sqrt_neg_0 (1 - Rabs (gram1 xs))) in Hs by lra.
    pose proof (rcond_nonneg (List.length xs)).
    pose proof (sqrt_pos (1 + Rabs (gram1 xs))). nra. }
  apply Rabs_lt_1_square in Hg. rewrite (gram1_square xs P0 P2) in Hg.
  apply Rmult_lt_compat_r with (r := power_sum 0 xs * power_sum 2 xs) in Hg;
    [|nra].
  unfold Rdiv in Hg. rewrite Rmult_assoc, Rinv_l in Hg by nra. lra.
Qed.

Lemma polyfit1_full_rank (xs ys : list R) :
  full_numerical_rank1 xs ->
  polyfit1 xs ys
  = [(power_sum 2 xs * moment 0 xs ys - power_sum 1 xs * moment 1 xs ys)
     / (power_sum 0 xs * power_sum 2 xs - power_sum 1 xs * power_sum 1 xs);
     (power_sum 0 xs * moment 1 xs ys - power_sum 1 xs * moment 0 xs ys)
     / (power_sum 0 xs * power_sum 2 xs - power_sum 1 xs * power_sum 1 xs)].
Proof.
  intros [H2 Hs]. unfold polyfit1.
  destruct (Req_dec_T (power_sum 2 xs) 0) as [E | _]; [contradiction|].
  destruct (Rlt_dec _ _) as [_ | N]; [reflexivity | contradiction].
Qed.

(** A handy sufficient condition: at most [2^40] samples whose x-values
    are not too close to proportional to the constant column. *)
Lemma full_numerical_rank1_sufficient (xs : list R) :
  INR (List.length xs) <= 2 ^ 40 ->
  0 < power_sum 0 xs -> 0 < power_sum 2 xs ->
  25 * (power_sum 1 xs * power_sum 1 xs)
  <= 24 * (power_sum 0 xs * power_sum 2 xs) ->
  full_numerical_rank1 xs.
Proof.
  intros Hn P0 P2 Hc. split; [lra|].
  unfold singular_values1. cbn [fst snd].
  set (g := Rabs (gram1 xs)).
  assert (Hg0 : 0 <= g) by apply Rabs_pos.
  assert (Hgg : g * g <= 24 / 25).
  { unfold g. rewrite <- Rabs_mult, Rabs_right by nra.
    rewrite (gram1_square xs P0 P2).
    apply Rmult_le_reg_r with (r := power_sum 0 xs * power_sum 2 xs); [nra|].
    unfold Rdiv. rewrite Rmult_assoc, Rinv_l by nra. lra. }
  assert (Hg : g <= 98 / 100) by nra.
  assert (Hr : rcond (List.length xs) <= / 2 ^ 12).
  { unfold rcond, eps.
    replace (/ 2 ^ 12) with (2 ^ 40 * / 2 ^ 52) by (field; split; apply pow_nonzero; lra).
    apply Rmult_le_compat_r; [|exact Hn].
    apply Rlt_le, Rinv_0_lt_compat, pow_lt; lra. }
  assert (H1 : sqrt (1 + g) <= 2).
  { rewrite <- (sqrt_square 2) by lra. apply sqrt_le_1; lra. }
  assert (H2 : / 10 <= sqrt (1 - g)).
  { rewrite <- (sqrt_square (/ 10)) by lra. apply sqrt_le_1; lra. }
  pose proof (rcond_nonneg (List.length xs)) as Hr0.
  pose proof (sqrt_pos (1 + g)) as Hs0.
  assert (H3 : rcond (List.length xs) * sqrt (1 + g) <= / 2 ^ 12 * 2).
  { apply Rmult_le_compat; lra. }
  assert (H4 : / 2 ^ 12 * 2 < / 10) by lra.
  lra.
Qed.

(** The residual sum of squares around any line [a0 + b0 x]. *)
Lemma rss_around (a0 b0 a b : R) (l : list (R * R)) :
  rsum (map (fun p => (snd p - predicted [a; b] (fst p)) ^ 2) l)
  = rsum (map (fun p => (snd p - predicted [a0; b0] (fst p)) ^ 2) l)
    - 2 * ((a - a0) * (rsum (map (fun p => fst p ^ 0 * snd p) l)
                       - a0 * rsum (map (fun p => fst p ^ 0) l)
                       - b0 * rsum (map (fun p => fst p ^ 1) l))
           + (b - b0) * (rsum (map (fun p => fst p ^ 1 * snd p) l)
                         - a0 * rsum (map (fun p => fst p ^ 1) l)
                         - b0 * rsum (map (fun p => fst p ^ 2) l)))
    + rsum (map (fun p => ((a - a0) + (b - b0) * fst p) ^ 2) l).
Proof.
  induction l as [|[x y] l IH]; rsum_step.
  - ring.
  - rewrite IH. unfold predicted. cbn [poly_terms fst snd pow]. ring.
Qed.

(** With no singular value cut, the coefficients [polyfit] returns for
    degree 1, read intercept first, minimise the residual sum of squares
    among all lines. *)
Lemma polyfit_linear_least_squares (xs ys : list R) :
  List.length xs = List.length ys ->
  full_numerical_rank1 xs ->
  forall a b, rss (polyfit xs ys 1) xs ys <= rss [a; b] xs ys.
Proof.
  intros Hl Hf a b.
  destruct (full_numerical_rank1_regular xs Hf) as (_ & _ & HD).
  cbn [polyfit]. rewrite (polyfit1_full_rank xs ys Hf).
  set (D := power_sum 0 xs * power_sum 2 xs - power_sum 1 xs * power_sum 1 xs) in *.
  set (a0 := (power_sum 2 xs * moment 0 xs ys - power_sum 1 xs * moment 1 xs ys) / D).
  set (b0 := (power_sum 0 xs * moment 1 xs ys - power_sum 1 xs * moment 0 xs ys) / D).
  unfold rss. rewrite (rss_around a0 b0 a b).
  rewrite <- !(power_sum_combine _ xs ys Hl).
  fold (moment 0 xs ys). fold (moment 1 xs ys).
  assert (N0 : moment 0 xs ys - a0 * power_sum 0 xs - b0 * power_sum 1 xs = 0).
  { unfold a0, b0. fold D. field_simplify_eq; [|lra]. unfold D. ring. }
  assert (N1 : moment 1 xs ys - a0 * power_sum 1 xs - b0 * power_sum 2 xs = 0).
  { unfold a0, b0. fold D. field_simplify_eq; [|lra]. unfold D. ring. }
  rewrite N0, N1.
  pose proof (rsum_squares_nonneg (fun p : R * R => (a - a0) + (b - b0) * fst p)
                (combine xs ys)).
  lra.
Qed.

(** The residual sum of squares around any parabola. *)
Lemma rss_around_quadratic (a0 b0 c0 a b c : R) (l : list (R * R)) :
  rsum (map (fun p => (snd p - predicted [a; b; c] (fst p)) ^ 2) l)
  = rsum (map (fun p => (snd p - predicted [a0; b0; c0] (fst p)) ^ 2) l)
    - 2 * ((a - a0) * (rsum (map (fun p => fst p ^ 0 * snd p) l)
                       - a0 * rsum (map (fun p => fst p ^ 0) l)
                       - b0 * rsum (map (fun p => fst p ^ 1) l)
                       - c0 * rsum (map (fun p => fst p ^ 2) l))
           + (b - b0) * (rsum (map (fun p => fst p ^ 1 * snd p) l)
                         - a0 * rsum (map (fun p => fst p ^ 1) l)
                         - b0 * rsum (map (fun p => fst p ^ 2) l)
                         - c0 * rsum (map (fun p => fst p ^ 3) l))
           + (c - c0) * (rsum (map (fun p => fst p ^ 2 * snd p) l)
                         - a0 * rsum (map (fun p => fst p ^ 2) l)
                         - b0 * rsum (map (fun p => fst p ^ 3) l)
                         - c0 * rsum (map (fun p => fst p ^ 4) l)))
    + rsum (map (fun p => ((a - a0) + (b - b0) * fst p
                           + (c - c0) * (fst p * fst p)) ^ 2) l).
Proof.
  induction l as [|[x y] l IH]; rsum_step.
  - ring.
  - rewrite IH. unfold predicted. cbn [poly_terms fst snd pow]. ring.
Qed.

Lemma power_sum_constant (c : R) (k : nat) (xs : list R) :
  (forall x, In x xs -> x = c) ->
  power_sum k xs = INR (List.length xs) * c ^ k.
Proof.
  unfold power_sum. induction xs as [|x xs IH]; intros H.
  - cbn. ring.
  - change (rsum (map (fun x => x ^ k) (x :: xs)))
      with (x ^ k + rsum (map (fun x => x ^ k) xs)).
    rewrite IH by (intros z Hz; apply H; right; exact Hz).
    rewrite (H x) by (left; reflexivity).
    cbn [List.length]. rewrite S_INR. ring.
Qed.

Lemma moment_0 (xs ys : list R) :
  List.length xs = List.length ys -> moment 0 xs ys = rsum ys.
Proof.
  unfold moment. revert ys.
  induction xs as [|x xs IH]; intros [|y ys] Hl; try discriminate; [reflexivity|].
  cbn [combine map rsum fold_right fst snd pow].
  change (fold_right Rplus 0 (map (fun p => fst p ^ 0 * snd p) (combine xs ys)))
    with (rsum (map (fun p => fst p ^ 0 * snd p) (combine xs ys))).
  rewrite IH by (now inversion Hl). change (fold_right Rplus 0 ys) with (rsum ys).
  ring.
Qed.

Lemma moment_constant (c : R) (k : nat) (xs ys : list R) :
  (forall x, In x xs -> x = c) ->
  List.length xs = List.length ys ->
  moment k xs ys = c ^ k * rsum ys.
Proof.
  unfold moment. revert ys.
  induction xs as [|x xs IH]; intros [|y ys] H Hl; try discriminate.
  - cbn. ring.
  - cbn [combine map rsum fold_right fst snd].
    change (fold_right Rplus 0 (map (fun p => fst p ^ k * snd p) (combine xs ys)))
      with (rsum (map (fun p => fst p ^ k * snd p) (combine xs ys))).
    rewrite IH; [|intros z Hz; apply H; right; exact Hz | now inversion Hl].
    rewrite (H x) by (left; reflexivity).
    change (fold_right Rplus 0 ys) with (rsum ys). ring.
Qed.

Lemma rcond_lt_1 (n : nat) : (Z.of_nat n < 2 ^ 52)%Z -> rcond n < 1.
Proof.
  intros H. unfold rcond, eps.
  assert (P : 0 < 2 ^ 52) by (apply pow_lt; lra).
  apply Rmult_lt_reg_r with (r := 2 ^ 52); [exact P|].
  rewrite Rmult_assoc, Rinv_l, Rmult_1_r, Rmult_1_l by lra.
  rewrite INR_IZR_INZ. apply IZR_lt in H.
  replace (2 ^ 52) with (IZR (2 ^ 52)); [exact H|].
  change 52%Z with (Z.of_nat 52). rewrite <- pow_IZR. reflexivity.
Qed.

(** [polyfit] of degree 1 on identical abscissae [c]: the smaller
    singular value is 0 and is cut, and the result is the minimum-norm
    solution of the scaled problem. *)
Lemma polyfit1_identical (xs ys : list R) (c : R) :
  xs <> [] ->
  List.length xs = List.length ys ->
  rcond (List.length xs) < 1 ->
  (forall x, In x xs -> x = c) ->
  polyfit1 xs ys
  = if Req_dec_T c 0 then [mean ys; 0]
    else [mean ys / 2; mean ys / (2 * c)].
Proof.
  intros Hne Hl Hr Hc.
  assert (Npos : 0 < INR (List.length xs)).
  { apply lt_0_INR. destruct xs; [contradiction | cbn; lia]. }
  pose proof (power_sum_constant c 0 xs Hc) as S0.
  pose proof (power_sum_constant c 1 xs Hc) as S1.
  pose proof (power_sum_constant c 2 xs Hc) as S2.
  pose proof (moment_constant c 0 xs ys Hc Hl) as T0.
  pose proof (moment_constant c 1 xs ys Hc Hl) as T1.
  cbn [pow] in S0, S1, S2, T0, T1.
  pose proof (rcond_nonneg (List.length xs)) as Hr0.
  unfold mean. rewrite <- Hl.
  set (n := INR (List.length xs)) in *.
  set (q := sqrt n).
  assert (Q : q * q = n) by (apply sqrt_sqrt; lra).
  assert (Qpos : 0 < q) by (apply sqrt_lt_R0; lra).
  unfold polyfit1.
  destruct (Req_dec_T c 0) as [C0 | C0].
  - destruct (Req_dec_T (power_sum 2 xs) 0) as [_ | N];
      [|exfalso; apply N; rewrite S2, C0; ring].
    destruct (Rlt_dec _ 1) as [_ | N]; [|contradiction].
    rewrite S0, T0. repeat f_equal. field. lra.
  - assert (Hcc : 0 < c * c).
    { destruct (Rtotal_order c 0) as [L | [E | G]]; [nra | contradiction | nra]. }
    assert (P2 : 0 < power_sum 2 xs) by (rewrite S2; nra).
    destruct (Req_dec_T (power_sum 2 xs) 0) as [E | _]; [lra|].
    assert (Hs2 : sqrt (power_sum 2 xs) = q * Rabs c).
    { rewrite S2. rewrite sqrt_mult by nra. fold q. f_equal.
      replace (c * (c * 1)) with (Rsqr c) by (unfold Rsqr; ring).
      apply sqrt_Rsqr_abs. }
    assert (Hs0 : sqrt (power_sum 0 xs) = q).
    { rewrite S0. unfold q. f_equal. ring. }
    assert (Hg : Rabs (gram1 xs) = 1).
    { unfold gram1.
      destruct (column_norm_pos (power_sum 0 xs)) as [-> _]; [rewrite S0; lra|].
      destruct (column_norm_pos (power_sum 2 xs)) as [-> _]; [exact P2|].
      rewrite Hs0, Hs2, S1.
      replace (n * (c * 1) / (q * (q * Rabs c))) with (c / Rabs c).
      2:{ rewrite <- Q. field. split; [|lra]. apply Rabs_no_R0, C0. }
      unfold Rabs at 2. destruct (Rcase_abs c).
      - replace (c / - c) with (-1) by (field; lra).
        unfold Rabs. destruct (Rcase_abs (-1)); lra.
      - replace (c / c) with 1 by (field; lra). apply Rabs_R1. }
    unfold singular_values1. cbn [fst snd]. rewrite Hg.
    replace (1 - 1) with 0 by ring. rewrite sqrt_0.
    destruct (Rlt_dec _ 0) as [L | _].
    { exfalso. pose proof (sqrt_pos (1 + 1)). nra. }
    destruct (Rlt_dec _ 1) as [_ | N]; [|contradiction].
    rewrite Hs0, Hs2, S1, T0, T1.
    destruct (Rle_dec 0 (n * (c * 1))) as [P | P].
    + assert (Cpos : 0 < c) by nra.
      rewrite (Rabs_right c) by lra. clearbody q. rewrite <- Q.
      f_equal; [|f_equal]; field; lra.
    + assert (Cneg : c < 0) by nra.
      rewrite (Rabs_left c) by lra. clearbody q. rewrite <- Q.
      f_equal; [|f_equal]; field; lra.
Qed.

(** [polyfit] always returns degree + 1 coefficients, so the unpacking
    in the regression functions cannot fail. *)
Lemma polyfit1_pair (xs ys : list R) : exists a b, polyfit1 xs ys = [a; b].
Proof.
  unfold polyfit1.
  repeat match goal with
         | |- context [if ?b then _ else _] => destruct b
         end; eauto.
Qed.

Lemma polyfit2_triple (xs ys : list R) : exists a b c, polyfit2 xs ys = [a; b; c].
Proof.
  unfold polyfit2.
  destruct (excluded_middle_informative _); [eauto|].
  destruct (epsilon _ _) as [[c0 c1] c2]. eauto.
Qed.

(** ** Degree 2 *)

Lemma power_sum_4_nonneg (xs : list R) : 0 <= power_sum 4 xs.
Proof.
  unfold power_sum. induction xs as [|x xs IH]; rsum_step; [lra|].
  assert (0 <= x ^ 4).
  { replace (x ^ 4) with ((x * x) ^ 2) by ring. apply pow2_ge_0. }
  lra.
Qed.

Lemma column_norm_positive (s : R) : 0 <= s -> 0 < column_norm s.
Proof.
  intros H. unfold column_norm. destruct (Req_dec_T s 0); [lra|].
  apply sqrt_lt_R0. lra.
Qed.

(** The constant term of the characteristic polynomial is minus the
    determinant of the Gram matrix, the determinant of the normal
    equations divided by the squared column norms. *)
Lemma char_poly_gram2_0 (xs : list R) :
  char_poly (gram2 xs) 0
  = - det3 (power_sum 0 xs) (power_sum 1 xs) (power_sum 2 xs)
           (power_sum 1 xs) (power_sum 2 xs) (power_sum 3 xs)
           (power_sum 2 xs) (power_sum 3 xs) (power_sum 4 xs)
    / (column_norm (power_sum 0 xs) * column_norm (power_sum 2 xs)
       * column_norm (power_sum 4 xs)) ^ 2.
Proof.
  assert (P0 : 0 <= power_sum 0 xs) by (rewrite power_sum_0; apply pos_INR).
  pose proof (column_norm_positive _ P0).
  pose proof (column_norm_positive _ (power_sum_2_nonneg xs)).
  pose proof (column_norm_positive _ (power_sum_4_nonneg xs)).
  unfold char_poly, gram2, det3. cbn [m00 m01 m02 m11 m12 m22].
  field. repeat split; lra.
Qed.

Lemma full_numerical_rank2_regular (xs : list R) :
  full_numerical_rank2 xs ->
  det3 (power_sum 0 xs) (power_sum 1 xs) (power_sum 2 xs)
       (power_sum 1 xs) (power_sum 2 xs) (power_sum 3 xs)
       (power_sum 2 xs) (power_sum 3 xs) (power_sum 4 xs) <> 0.
Proof.
  intros Hf HD.
  assert (S : singular_value (gram2 xs) 0).
  { split; [lra|]. rewrite Rmult_0_l, char_poly_gram2_0, HD.
    unfold Rdiv. ring. }
  specialize (Hf 0 0 S S). lra.
Qed.

Lemma polyfit2_full_rank (xs ys : list R) :
  full_numerical_rank2 xs ->
  let D := det3 (power_sum 0 xs) (power_sum 1 xs) (power_sum 2 xs)
                (power_sum 1 xs) (power_sum 2 xs) (power_sum 3 xs)
                (power_sum 2 xs) (power_sum 3 xs) (power_sum 4 xs) in
  polyfit2 xs ys
  = [det3 (moment 0 xs ys) (power_sum 1 xs) (power_sum 2 xs)
          (moment 1 xs ys) (power_sum 2 xs) (power_sum 3 xs)
          (moment 2 xs ys) (power_sum 3 xs) (power_sum 4 xs) / D;
     det3 (power_sum 0 xs) (moment 0 xs ys) (power_sum 2 xs)
          (power_sum 1 xs) (moment 1 xs ys) (power_sum 3 xs)
          (power_sum 2 xs) (moment 2 xs ys) (power_sum 4 xs) / D;
     det3 (power_sum 0 xs) (power_sum 1 xs) (moment 0 xs ys)
          (power_sum 1 xs) (power_sum 2 xs) (moment 1 xs ys)
          (power_sum 2 xs) (power_sum 3 xs) (moment 2 xs ys) / D].
Proof.
  intros Hf D. unfold polyfit2.
  destruct (excluded_middle_informative _) as [_ | N]; [reflexivity | contradiction].
Qed.

(** The characteristic polynomial when no column is zero: the Gram matrix
    has unit diagonal. *)
Lemma char_poly_gram2 (xs : list R) (l : R) :
  0 < power_sum 0 xs -> 0 < power_sum 2 xs -> 0 < power_sum 4 xs ->
  char_poly (gram2 xs) l
  = l * l * l - 3 * (l * l)
    + (3 - power_sum 1 xs * power_sum 1 xs / (power_sum 0 xs * power_sum 2 xs)
         - power_sum 2 xs * power_sum 2 xs / (power_sum 0 xs * power_sum 4 xs)
         - power_sum 3 xs * power_sum 3 xs / (power_sum 2 xs * power_sum 4 xs)) * l
    - det3 (power_sum 0 xs) (power_sum 1 xs) (power_sum 2 xs)
           (power_sum 1 xs) (power_sum 2 xs) (power_sum 3 xs)
           (power_sum 2 xs) (power_sum 3 xs) (power_sum 4 xs)
      / (power_sum 0 xs * power_sum 2 xs * power_sum 4 xs).
Proof.
  intros P0 P2 P4.
  unfold char_poly, gram2, det3. cbn [m00 m01 m02 m11 m12 m22].
  destruct (column_norm_pos _ P0) as [-> Q0].
  destruct (column_norm_pos _ P2) as [-> Q2].
  destruct (column_norm_pos _ P4) as [-> Q4].
  pose proof (sqrt_sqrt _ (Rlt_le _ _ P0)) as E0.
  pose proof (sqrt_sqrt _ (Rlt_le _ _ P2)) as E2.
  pose proof (sqrt_sqrt _ (Rlt_le _ _ P4)) as E4.
  set (a := sqrt (power_sum 0 xs)) in *.
  set (b := sqrt (power_sum 2 xs)) in *.
  set (c := sqrt (power_sum 4 xs)) in *.
  clearbody a b c. rewrite <- E0, <- E2, <- E4. field. repeat split; lra.
Qed.

(** A handy sufficient condition for full numerical rank in degree 2, in
    terms of the coefficients [C] and [Delta] of the characteristic
    polynomial: every eigenvalue lies between [Delta / C] and 3. *)
Lemma full_numerical_rank2_sufficient (xs : list R) :
  let C := 3 - power_sum 1 xs * power_sum 1 xs / (power_sum 0 xs * power_sum 2 xs)
             - power_sum 2 xs * power_sum 2 xs / (power_sum 0 xs * power_sum 4 xs)
             - power_sum 3 xs * power_sum 3 xs / (power_sum 2 xs * power_sum 4 xs) in
  let Delta := det3 (power_sum 0 xs) (power_sum 1 xs) (power_sum 2 xs)
                    (power_sum 1 xs) (power_sum 2 xs) (power_sum 3 xs)
                    (power_sum 2 xs) (power_sum 3 xs) (power_sum 4 xs)
               / (power_sum 0 xs * power_sum 2 xs * power_sum 4 xs) in
  INR (List.length xs) <= 2 ^ 40 ->
  0 < power_sum 0 xs -> 0 < power_sum 2 xs -> 0 < power_sum 4 xs ->
  0 < C -> Delta <= 3 * C -> / 2 ^ 20 * C <= Delta ->
  full_numerical_rank2 xs.
Proof.
  intros C Delta Hn P0 P2 P4 HC HD3 HDC s s' [Hs0 Hs] [Hs0' Hs'].
  rewrite (char_poly_gram2 xs _ P0 P2 P4) in Hs.
  rewrite (char_poly_gram2 xs _ P0 P2 P4) in Hs'.
  fold C in Hs, Hs'. fold Delta in Hs, Hs'.
  set (l := s * s) in *. set (m := s' * s') in *.
  assert (Hl0 : 0 <= l) by (unfold l; nra).
  assert (Hm0 : 0 <= m) by (unfold m; nra).
  assert (HDpos : 0 < Delta).
  { assert (0 < / 2 ^ 20) by (apply Rinv_0_lt_compat, pow_lt; lra). nra. }
  assert (Hm3 : m <= 3).
  { destruct (Rle_dec m 3) as [L | N]; [exact L|]. exfalso.
    assert (G : 3 < m) by lra.
    assert (0 < m * m * (m - 3)) by (apply Rmult_lt_0_compat; nra).
    assert (0 <= C * (m - 3)) by nra. nra. }
  assert (Hl3 : l <= 3).
  { destruct (Rle_dec l 3) as [L | N]; [exact L|]. exfalso.
    assert (G : 3 < l) by lra.
    assert (0 < l * l * (l - 3)) by (apply Rmult_lt_0_compat; nra).
    assert (0 <= C * (l - 3)) by nra. nra. }
  assert (HlD : Delta <= C * l).
  { assert (l * l * (l - 3) <= 0).
    { replace (l * l * (l - 3)) with (- ((l * l) * (3 - l))) by ring.
      assert (0 <= (l * l) * (3 - l)) by (apply Rmult_le_pos; nra). lra. }
    nra. }
  assert (Hr : rcond (List.length xs) <= / 2 ^ 12).
  { unfold rcond, eps.
    replace (/ 2 ^ 12) with (2 ^ 40 * / 2 ^ 52)
      by (field; split; apply pow_nonzero; lra).
    apply Rmult_le_compat_r; [|exact Hn].
    apply Rlt_le, Rinv_0_lt_compat, pow_lt; lra. }
  pose proof (rcond_nonneg (List.length xs)) as Hr0.
  set (r := rcond (List.length xs)) in *.
  destruct (Rlt_dec (r * s') s) as [L | N]; [exact L|]. exfalso.
  assert (Hle : s <= r * s') by lra.
  assert (Hsq : l <= (r * s') * (r * s')) by (unfold l; nra).
  assert (Hrr : r * r <= / 2 ^ 12 * / 2 ^ 12) by (apply Rmult_le_compat; lra).
  assert (Hb : (r * s') * (r * s') <= / 2 ^ 12 * / 2 ^ 12 * 3).
  { replace ((r * s') * (r * s')) with ((r * r) * m) by (unfold m; ring).
    apply Rmult_le_compat; nra. }
  assert (H24 : / 2 ^ 12 * / 2 ^ 12 * 3 < / 2 ^ 20) by lra.
  assert (HlC : / 2 ^ 20 * C <= C * l) by lra.
  assert (Hlow : / 2 ^ 20 <= l).
  { apply Rmult_le_reg_l with (r := C); [exact HC|]. lra. }
  lra.
Qed.

Lemma short_lists_singular (xs : list R) :
  (List.length xs <= 2)%nat ->
  det3 (power_sum 0 xs) (power_sum 1 xs) (power_sum 2 xs)
       (power_sum 1 xs) (power_sum 2 xs) (power_sum 3 xs)
       (power_sum 2 xs) (power_sum 3 xs) (power_sum 4 xs) = 0.
Proof.
  destruct xs as [|a [|b [|c xs]]]; cbn [List.length]; intros H; try lia;
    sums; ring.
Qed.

Lemma singleton_singular (xs : list R) :
  (List.length xs <= 1)%nat ->
  power_sum 0 xs * power_sum 2 xs - power_sum 1 xs * power_sum 1 xs = 0.
Proof.
  destruct xs as [|a [|b xs]]; cbn [List.length]; intros H; try lia;
    sums; ring.
Qed.

(** With no singular value cut, the coefficients [polyfit] returns for
    degree 2, read intercept first, minimise the residual sum of squares
    among all polynomials of degree at most 2. *)
Lemma polyfit_quadratic_least_squares (xs ys : list R) :
  List.length xs = List.length ys ->
  full_numerical_rank2 xs ->
  forall a b c, rss (polyfit xs ys 2) xs ys <= rss [a; b; c] xs ys.
Proof.
  intros Hl Hf a b c.
  pose proof (full_numerical_rank2_regular xs Hf) as HD.
  cbn [polyfit]. rewrite (polyfit2_full_rank xs ys Hf). cbv zeta.
  set (s0 := power_sum 0 xs) in *. set (s1 := power_sum 1 xs) in *.
  set (s2 := power_sum 2 xs) in *. set (s3 := power_sum 3 xs) in *.
  set (s4 := power_sum 4 xs) in *.
  set (t0 := moment 0 xs ys). set (t1 := moment 1 xs ys).
  set (t2 := moment 2 xs ys).
  set (D := det3 s0 s1 s2 s1 s2 s3 s2 s3 s4) in *.
  set (a0 := det3 t0 s1 s2 t1 s2 s3 t2 s3 s4 / D).
  set (b0 := det3 s0 t0 s2 s1 t1 s3 s2 t2 s4 / D).
  set (c0 := det3 s0 s1 t0 s1 s2 t1 s2 s3 t2 / D).
  unfold rss. rewrite (rss_around_quadratic a0 b0 c0 a b c).
  rewrite <- !(power_sum_combine _ xs ys Hl).
  fold (moment 0 xs ys). fold (moment 1 xs ys). fold (moment 2 xs ys).
  fold s0 s1 s2 s3 s4 t0 t1 t2.
  assert (N0 : t0 - a0 * s0 - b0 * s1 - c0 * s2 = 0).
  { unfold a0, b0, c0. field_simplify_eq; [|exact HD]. unfold D, det3. ring. }
  assert (N1 : t1 - a0 * s1 - b0 * s2 - c0 * s3 = 0).
  { unfold a0, b0, c0. field_simplify_eq; [|exact HD]. unfold D, det3. ring. }
  assert (N2 : t2 - a0 * s2 - b0 * s3 - c0 * s4 = 0).
  { unfold a0, b0, c0. field_simplify_eq; [|exact HD]. unfold D, det3. ring. }
  rewrite N0, N1, N2.
  pose proof (rsum_squares_nonneg
                (fun p : R * R => (a - a0) + (b - b0) * fst p
                                  + (c - c0) * (fst p * fst p))
                (combine xs ys)).
  lra.
Qed.

(** What [linear_regression] does on finite data with at least two
    samples: it succeeds, and returns the two coefficients of [polyfit]
    in reverse, scored in that reversed order. *)
Lemma linear_regression_fit (xl yl : list pyval) (xs ys : list R) :
  finite_array xl = Some xs ->
  finite_array yl = Some ys ->
  List.length xl = List.length yl ->
  (2 <= List.length xl)%nat ->
  exists a b,
    polyfit xs ys 1 = [a; b]
    /\ linear_regression (PList xl) (PList yl)
       = Return (fit_result (floats [b; a])
                   (PFloat (Finite (rmse_spec [b; a] xs ys)))).
Proof.
  intros Hxs Hys Hl Hn.
  rewrite (linear_regression_checked xl yl
             (finite_array_numbers _ _ Hxs) (finite_array_numbers _ _ Hys) Hl).
  apply Nat.ltb_ge in Hn. rewrite Hn.
  unfold arrays. cbn [elements]. rewrite Hxs, Hys. cbn [bind polyfit].
  destruct (polyfit1_pair xs ys) as (a & b & ->). cbn [try_except].
  exists a, b. split; [reflexivity|].
  rewrite rmse_of_polyval; [reflexivity|].
  rewrite (finite_array_length _ _ Hxs), (finite_array_length _ _ Hys). exact Hl.
Qed.

Lemma quadratic_regression_fit (xl yl : list pyval) (xs ys : list R) :
  finite_array xl = Some xs ->
  finite_array yl = Some ys ->
  List.length xl = List.length yl ->
  (3 <= List.length xl)%nat ->
  exists a b c,
    polyfit xs ys 2 = [a; b; c]
    /\ quadratic_regression (PList xl) (PList yl)
       = Return (fit_result (floats [c; b; a])
                   (PFloat (Finite (rmse_spec [c; b; a] xs ys)))).
Proof.
  intros Hxs Hys Hl Hn.
  rewrite (quadratic_regression_checked xl yl
             (finite_array_numbers _ _ Hxs) (finite_array_numbers _ _ Hys) Hl).
  apply Nat.ltb_ge in Hn. rewrite Hn.
  unfold arrays. cbn [elements]. rewrite Hxs, Hys. cbn [bind polyfit].
  destruct (polyfit2_triple xs ys) as (a & b & c & ->). cbn [try_except].
  exists a, b, c. split; [reflexivity|].
  rewrite rmse_of_polyval; [reflexivity|].
  rewrite (finite_array_length _ _ Hxs), (finite_array_length _ _ Hys). exact Hl.
Qed.

(** * Claims on the fit *)

Lemma scenario_1_full_rank : full_numerical_rank1 [1; 2; 3].
Proof.
  apply full_numerical_rank1_sufficient.
  - cbn [List.length INR]. pose proof (pow_R1_Rle 2 40). lra.
  - sums. lra.
  - sums. lra.
  - sums. lra.
Qed.

Lemma polyfit_scenario_1 : polyfit [1; 2; 3] [2; 4; 6] 1 = [0; 2].
Proof.
  cbn [polyfit]. rewrite (polyfit1_full_rank _ _ scenario_1_full_rank). sums.
  repeat f_equal; field.
Qed.

(** Scenario 1 of the specification, [x = [1, 2, 3]], [y = [2, 4, 6]]:
    the function returns the slope first and scores the line
    [2 + 0 x]. *)
Lemma linear_regression_scenario_1 :
  linear_regression (ints [1; 2; 3]%Z) (ints [2; 4; 6]%Z)
  = Return (fit_result (floats [2; 0]) (PFloat (Finite (sqrt (20 / 3))))).
Proof.
  unfold ints. cbn [map]. rewrite linear_regression_checked by reflexivity.
  cbn [List.length Nat.ltb Nat.leb].
  change (arrays (PList [PInt 1; PInt 2; PInt 3]) (PList [PInt 2; PInt 4; PInt 6]))
    with (@Return (list R * list R) ([1; 2; 3], [2; 4; 6])).
  cbn [bind]. rewrite polyfit_scenario_1. cbn [try_except floats map].
  unfold mean_squared_error, polyval, polyval1.
  cbn [map rsum fold_right pow combine fst snd List.length INR].
  match goal with
  | |- context [sqrt ?a] => replace a with (20 / 3) by field
  end.
  reflexivity.
Qed.

(** C1 at its failing input, scenario 1.  [polyfit] returns [0; 2], the
    least-squares line read intercept first; [linear_regression] unpacks
    it as [p1, p0], so it returns [params = [2, 0]] and the RMSE of the
    line [2 + 0 x], which is [sqrt(20/3)] and not 0.  Read intercept
    first, the returned coefficients have residual sum of squares 20,
    where the line [0 + 2 x] has 0. *)
Theorem linear_scenario_1_returns_slope_first :
  polyfit [1; 2; 3] [2; 4; 6] 1 = [0; 2]
  /\ linear_regression (ints [1; 2; 3]%Z) (ints [2; 4; 6]%Z)
     = Return (fit_result (floats [2; 0]) (PFloat (Finite (sqrt (20 / 3)))))
  /\ rss [2; 0] [1; 2; 3] [2; 4; 6] = 20
  /\ rss [0; 2] [1; 2; 3] [2; 4; 6] = 0
  /\ 1 < sqrt (20 / 3).
Proof.
  split; [exact polyfit_scenario_1|].
  split; [exact linear_regression_scenario_1|].
  split; [|split].
  - unfold rss, predicted. cbn [combine map rsum fold_right poly_terms fst snd pow].
    ring.
  - unfold rss, predicted. cbn [combine map rsum fold_right poly_terms fst snd pow].
    ring.
  - rewrite <- sqrt_1 at 1. apply sqrt_lt_1; lra.
Qed.

Lemma rmse_of_returned_coefficients_witness :
  exists xs ys coefficients,
    finite_array (elements (ints [1; 2; 3]%Z)) = Some xs
    /\ finite_array (elements (ints [2; 4; 6]%Z)) = Some ys
    /\ floats [2; 0] = floats coefficients
    /\ PFloat (Finite (sqrt (20 / 3)))
       = PFloat (Finite (rmse_spec coefficients xs ys)).
Proof.
  apply (rmse_of_returned_coefficients (ints [1; 2; 3]%Z) (ints [2; 4; 6]%Z)).
  left. split.
  - exact linear_regression_scenario_1.
  - unfold len, ints. simpl. lia.
Defined.

Lemma quadratic_example_full_rank : full_numerical_rank2 [0; 1; 2].
Proof.
  apply full_numerical_rank2_sufficient.
  - cbn [List.length INR]. pose proof (pow_R1_Rle 2 40). lra.
  - sums. lra.
  - sums. lra.
  - sums. lra.
  - sums. lra.
  - sums. lra.
  - sums. assert (H : / 2 ^ 20 <= / 100).
    { apply Rinv_le_contravar; [lra|].
      replace 100 with (100 * 1 ^ 20) by (rewrite pow1; ring).
      assert (P : 1024 * 1024 <= 2 ^ 20) by (cbn [pow]; lra). lra. }
    lra.
Qed.

Lemma polyfit_quadratic_example : polyfit [0; 1; 2] [1; 6; 17] 2 = [1; 2; 3].
Proof.
  cbn [polyfit]. rewrite (polyfit2_full_rank _ _ quadratic_example_full_rank).
  cbv zeta. sums. repeat f_equal; field.
Qed.

Lemma linear_example_full_rank : full_numerical_rank1 [0; 1].
Proof.
  apply full_numerical_rank1_sufficient.
  - cbn [List.length INR]. pose proof (pow_R1_Rle 2 40). lra.
  - sums. lra.
  - sums. lra.
  - sums. lra.
Qed.

Lemma polyfit_linear_example : polyfit [0; 1] [1; 3] 1 = [1; 2].
Proof.
  cbn [polyfit]. rewrite (polyfit1_full_rank _ _ linear_example_full_rank). sums.
  repeat f_equal; field.
Qed.

(** C2 at its failing inputs.  On three samples of [1 + 2x + 3x^2],
    [quadratic_regression] returns [params = [3, 2, 1]]: quadratic term
    first, intercept last.  On two samples of [1 + 2x],
    [linear_regression] returns [params = [2, 1]]: slope first.  The
    lengths are degree + 1; the order is from high to low degree. *)
Theorem coefficients_are_returned_high_to_low :
  quadratic_regression (ints [0; 1; 2]%Z) (ints [1; 6; 17]%Z)
  = Return (fit_result (floats [3; 2; 1]) (PFloat (Finite (sqrt (40 / 3)))))
  /\ linear_regression (ints [0; 1]%Z) (ints [1; 3]%Z)
     = Return (fit_result (floats [2; 1]) (PFloat (Finite (sqrt (1 / 2))))).
Proof.
  split.
  - unfold ints. cbn [map]. rewrite quadratic_regression_checked by reflexivity.
    cbn [List.length Nat.ltb Nat.leb].
    change (arrays (PList [PInt 0; PInt 1; PInt 2])
                   (PList [PInt 1; PInt 6; PInt 17]))
      with (@Return (list R * list R) ([0; 1; 2], [1; 6; 17])).
    cbn [bind]. rewrite polyfit_quadratic_example. cbn [try_except floats map].
    unfold mean_squared_error, polyval, polyval1.
    cbn [map rsum fold_right pow combine fst snd List.length INR].
    match goal with
    | |- context [sqrt ?a] => replace a with (40 / 3) by field
    end.
    reflexivity.
  - unfold ints. cbn [map]. rewrite linear_regression_checked by reflexivity.
    cbn [List.length Nat.ltb Nat.leb].
    change (arrays (PList [PInt 0; PInt 1]) (PList [PInt 1; PInt 3]))
      with (@Return (list R * list R) ([0; 1], [1; 3])).
    cbn [bind]. rewrite polyfit_linear_example. cbn [try_except floats map].
    unfold mean_squared_error, polyval, polyval1.
    cbn [map rsum fold_right pow combine fst snd List.length INR].
    match goal with
    | |- context [sqrt ?a] => replace a with (1 / 2) by field
    end.
    reflexivity.
Qed.

Lemma polyfit_identical_abscissae : polyfit [1; 1] [1; 3] 1 = [1; 1].
Proof.
  cbn [polyfit]. rewrite (polyfit1_identical [1; 1] [1; 3] 1).
  - destruct (Req_dec_T 1 0) as [E | _]; [lra|].
    unfold mean. cbn [rsum fold_right List.length INR].
    repeat f_equal; field.
  - discriminate.
  - reflexivity.
  - apply rcond_lt_1. reflexivity.
  - cbn. intros x [<- | [<- | []]]; reflexivity.
Qed.

(** C4, as stated, fails: on [x = [1, 1]], [y = [1, 3]] no error is
    raised.  [polyfit] answers a rank-deficient system with its
    minimum-norm least-squares solution, here [1; 1], and
    [linear_regression] returns it with the RMSE 1. *)
Lemma identical_abscissae_are_fitted :
  linear_regression (ints [1; 1]%Z) (ints [1; 3]%Z)
  = Return (fit_result (floats [1; 1]) (PFloat (Finite 1)))
  /\ computation_error (linear_regression (ints [1; 1]%Z) (ints [1; 3]%Z))
     = false.
Proof.
  assert (E : linear_regression (ints [1; 1]%Z) (ints [1; 3]%Z)
              = Return (fit_result (floats [1; 1]) (PFloat (Finite 1)))).
  { unfold ints. cbn [map]. rewrite linear_regression_checked by reflexivity.
    cbn [List.length Nat.ltb Nat.leb].
    change (arrays (PList [PInt 1; PInt 1]) (PList [PInt 1; PInt 3]))
      with (@Return (list R * list R) ([1; 1], [1; 3])).
    cbn [bind]. rewrite polyfit_identical_abscissae. cbn [try_except floats map].
    unfold mean_squared_error, polyval, polyval1.
    cbn [map rsum fold_right pow combine fst snd List.length INR].
    match goal with
    | |- context [sqrt ?a] => replace a with 1 by field
    end.
    rewrite sqrt_1. reflexivity. }
  rewrite E. split; reflexivity.
Qed.

(** C4, amended: for every sample set of finite floats and machine
    integers with at least 2 (and fewer than 2^52) samples whose x-values
    are all one value [c], [linear_regression] does not fail.  [polyfit]
    cuts the vanishing singular value and returns the minimum-norm
    solution, intercept [mean(y) / 2] and slope [mean(y) / (2 c)], or
    intercept [mean(y)] and slope 0 when [c = 0]; [linear_regression]
    returns these two, slope first, with the RMSE of the returned pair
    read from low to high degree. *)
Theorem identical_abscissae_fit_succeeds
  (xl yl : list pyval) (xs ys : list R) (c : R) :
  finite_array xl = Some xs ->
  finite_array yl = Some ys ->
  List.length xl = List.length yl ->
  (2 <= List.length xl)%nat ->
  (Z.of_nat (List.length xl) < 2 ^ 52)%Z ->
  (forall x, In x xs -> x = c) ->
  (c = 0 ->
   linear_regression (PList xl) (PList yl)
   = Return (fit_result (floats [0; mean ys])
               (PFloat (Finite (rmse_spec [0; mean ys] xs ys)))))
  /\ (c <> 0 ->
      linear_regression (PList xl) (PList yl)
      = Return (fit_result (floats [mean ys / (2 * c); mean ys / 2])
                  (PFloat (Finite
                     (rmse_spec [mean ys / (2 * c); mean ys / 2] xs ys))))).
Proof.
  intros Hxs Hys Hl Hn Hn52 Hc.
  pose proof (finite_array_length _ _ Hxs) as Lx.
  pose proof (finite_array_length _ _ Hys) as Ly.
  destruct (linear_regression_fit xl yl xs ys Hxs Hys Hl Hn)
    as (a & b & Hfit & Hret).
  cbn [polyfit] in Hfit.
  rewrite (polyfit1_identical xs ys c) in Hfit.
  - split; intros C0; rewrite Hret.
    + destruct (Req_dec_T c 0) as [_ | N]; [|contradiction].
      inversion Hfit. reflexivity.
    + destruct (Req_dec_T c 0) as [E | _]; [contradiction|].
      inversion Hfit. reflexivity.
  - intros ->. cbn in Lx. lia.
  - congruence.
  - apply rcond_lt_1. rewrite Lx. exact Hn52.
  - exact Hc.
Qed.

Lemma identical_abscissae_fit_succeeds_witness :
  linear_regression (PList [PInt 1; PInt 1]) (PList [PInt 1; PInt 3])
  = Return (fit_result (floats [mean [1; 3] / (2 * 1); mean [1; 3] / 2])
              (PFloat (Finite
                 (rmse_spec [mean [1; 3] / (2 * 1); mean [1; 3] / 2]
                            [1; 1] [1; 3])))).
Proof.
  apply (identical_abscissae_fit_succeeds
           [PInt 1; PInt 1] [PInt 1; PInt 3] [1; 1] [1; 3] 1).
  - reflexivity.
  - reflexivity.
  - reflexivity.
  - simpl. lia.
  - reflexivity.
  - simpl. intros x [<- | [<- | []]]; reflexivity.
  - lra.
Defined.
(** * Further properties of the regression functions *)

Lemma try_block_not_ValueError {A : Type} (body : outcome A) (fmt : string) (e : exn) :
  try_except body (fun c => Raise (RuntimeError fmt c)) = Raise e ->
  isinstance_ValueError e = false.
Proof.
  destruct body; cbn; intros H; inversion H. reflexivity.
Qed.

(** X1: the two regression functions share their validation.  A call is
    free of [ValueError] exactly when both arguments are lists, every
    element is an [int], [float] or [bool], and the lengths agree; and
    whenever one function raises a [ValueError], the other raises the
    same one. *)
Theorem validation_is_shared (x y : pyval) :
  (invalid_input (linear_regression x y) = false <-> validated x y)
  /\ (invalid_input (quadratic_regression x y) = false <-> validated x y)
  /\ (forall e, isinstance_ValueError e = true ->
        (linear_regression x y = Raise e <-> quadratic_regression x y = Raise e)).
Proof.
  split; [|split].
  - split; [apply linear_regression_validated|].
    intros V. destruct (linear_regression_outcome x y V) as [[r ->] | [e ->]];
      reflexivity.
  - split; [apply quadratic_regression_validated|].
    intros V. destruct (quadratic_regression_outcome x y V) as [[r ->] | [e ->]];
      reflexivity.
  - intros e He. unfold linear_regression, quadratic_regression.
    destruct (negb (isinstance_list x) || negb (isinstance_list y));
      [reflexivity|].
    destruct (negb (forallb isinstance_int_float (elements x))
              || negb (forallb isinstance_int_float (elements y)));
      [reflexivity|].
    destruct (negb (Nat.eqb (len x) (len y))); [reflexivity|].
    split; intros H; exfalso.
    + destruct (Nat.ltb (len x) 2); [discriminate|].
      apply try_block_not_ValueError in H. congruence.
    + destruct (Nat.ltb (len x) 3); [discriminate|].
      apply try_block_not_ValueError in H. congruence.
Qed.

Lemma validation_is_shared_witness :
  quadratic_regression (ints [1; 2]%Z) (ints [3]%Z)
  = Raise (ValueError "Input lists 'x' and 'y' must have the same length.").
Proof.
  apply (validation_is_shared (ints [1; 2]%Z) (ints [3]%Z)); reflexivity.
Defined.

Lemma linear_regression_returns (x y r : pyval) :
  linear_regression x y = Return r ->
  exists p0 p1 rmse, r = fit_result [p0; p1] rmse /\ rmse_value rmse.
Proof.
  intros H.
  assert (V : invalid_input (linear_regression x y) = false)
    by (rewrite H; reflexivity).
  apply linear_regression_validated in V.
  destruct V as (xl & yl & -> & -> & Hx & Hy & Hl).
  rewrite (linear_regression_checked xl yl Hx Hy Hl) in H.
  destruct (Nat.ltb (List.length xl) 2).
  - inversion H. eexists _, _, _. split; [reflexivity | left; reflexivity].
  - destruct (arrays (PList xl) (PList yl)) as [[xs ys] | e];
      cbn [bind try_except] in H; [|discriminate].
    destruct (polyfit xs ys 1) as [|p1 [|p0 [|? ?]]];
      cbn [try_except] in H; try discriminate.
    inversion H. eexists _, _, _. split; [reflexivity|].
    right. eexists. split; [reflexivity | apply sqrt_pos].
Qed.

Lemma quadratic_regression_returns (x y r : pyval) :
  quadratic_regression x y = Return r ->
  exists p0 p1 p2 rmse, r = fit_result [p0; p1; p2] rmse /\ rmse_value rmse.
Proof.
  intros H.
  assert (V : invalid_input (quadratic_regression x y) = false)
    by (rewrite H; reflexivity).
  apply quadratic_regression_validated in V.
  destruct V as (xl & yl & -> & -> & Hx & Hy & Hl).
  rewrite (quadratic_regression_checked xl yl Hx Hy Hl) in H.
  destruct (Nat.ltb (List.length xl) 3).
  - inversion H. eexists _, _, _, _. split; [reflexivity | left; reflexivity].
  - destruct (arrays (PList xl) (PList yl)) as [[xs ys] | e];
      cbn [bind try_except] in H; [|discriminate].
    destruct (polyfit xs ys 2) as [|p2 [|p1 [|p0 [|? ?]]]];
      cbn [try_except] in H; try discriminate.
    inversion H. eexists _, _, _, _. split; [reflexivity|].
    right. eexists. split; [reflexivity | apply sqrt_pos].
Qed.

(** X2: whatever a regression function returns, on the short circuit or
    after a fit, is a dict with exactly the keys [params] and [RMSE], in
    that order; [params] holds 2 entries for the linear and 3 for the
    quadratic function, and [RMSE] is never negative. *)
Theorem regression_result_shape (x y r : pyval) :
  (linear_regression x y = Return r ->
   exists p0 p1 rmse,
     r = PDict [("params"%string, PList [p0; p1]); ("RMSE"%string, rmse)]
     /\ rmse_value rmse)
  /\ (quadratic_regression x y = Return r ->
      exists p0 p1 p2 rmse,
        r = PDict [("params"%string, PList [p0; p1; p2]); ("RMSE"%string, rmse)]
        /\ rmse_value rmse).
Proof.
  split.
  - apply linear_regression_returns.
  - apply quadratic_regression_returns.
Qed.

Lemma regression_result_shape_witness :
  exists p0 p1 rmse,
    fit_result (floats [2; 0]) (PFloat (Finite (sqrt (20 / 3))))
    = PDict [("params"%string, PList [p0; p1]); ("RMSE"%string, rmse)]
    /\ rmse_value rmse.
Proof.
  apply (regression_result_shape (ints [1; 2; 3]%Z) (ints [2; 4; 6]%Z)).
  exact linear_regression_scenario_1.
Defined.

Lemma two_distinct_members (xs : list R) (u v : R) :
  In u xs -> In v xs -> u <> v -> (2 <= List.length xs)%nat.
Proof.
  destruct xs as [|a [|b xs]]; cbn; intros Hu Hv Huv; try lia.
  destruct Hu as [Hu | []], Hv as [Hv | []]. congruence.
Qed.

Lemma constant_or_not (c : R) (xs : list R) :
  (forall x, In x xs -> x = c) \/ (exists x, In x xs /\ x <> c).
Proof.
  induction xs as [|a xs [IH | (x & Hx & N)]].
  - left. intros x [].
  - destruct (Req_dec_T a c) as [E | N].
    + left. intros x [<- | Hx]; [exact E | apply IH, Hx].
    + right. exists a. split; [left; reflexivity | exact N].
  - right. exists x. split; [right; exact Hx | exact N].
Qed.

(** A design of full numerical rank holds two distinct abscissae. *)
Lemma full_numerical_rank1_distinct (xs : list R) :
  full_numerical_rank1 xs -> exists u v, In u xs /\ In v xs /\ u <> v.
Proof.
  intros F. destruct (full_numerical_rank1_regular xs F) as (H0 & H2 & HD).
  destruct xs as [|a xs].
  - exfalso. unfold power_sum in H0. cbn in H0. lra.
  - destruct (constant_or_not a (a :: xs)) as [C | (x & Hx & N)].
    + exfalso. rewrite !(power_sum_constant a) in HD by exact C.
      cbn [pow] in HD. lra.
    + exists x, a. split; [exact Hx|]. split; [left; reflexivity | exact N].
Qed.

(** X3: on samples of finite floats and machine integers whose design
    has full numerical rank (the smaller singular value of the
    column-scaled Vandermonde matrix exceeds [len(x) * eps] times the
    larger), [linear_regression] succeeds and returns [params = [slope,
    intercept]] of the least-squares line: the returned pair, read with
    its SECOND entry as intercept and its FIRST as slope, minimises the
    residual sum of squares among all lines. *)
Theorem linear_regression_returns_least_squares_line_reversed
  (xl yl : list pyval) (xs ys : list R) :
  finite_array xl = Some xs ->
  finite_array yl = Some ys ->
  List.length xl = List.length yl ->
  full_numerical_rank1 xs ->
  exists slope intercept rmse,
    linear_regression (PList xl) (PList yl)
    = Return (fit_result (floats [slope; intercept]) rmse)
    /\ forall a b, rss [intercept; slope] xs ys <= rss [a; b] xs ys.
Proof.
  intros Hxs Hys Hl F.
  pose proof (finite_array_length _ _ Hxs) as Lx.
  pose proof (finite_array_length _ _ Hys) as Ly.
  destruct (full_numerical_rank1_distinct xs F) as (u & v & Hu & Hv & Huv).
  pose proof (two_distinct_members xs u v Hu Hv Huv) as Hn.
  destruct (linear_regression_fit xl yl xs ys Hxs Hys Hl ltac:(lia))
    as (a0 & b0 & Hfit & Hret).
  exists b0, a0. eexists. split; [exact Hret|].
  intros a b. rewrite <- Hfit.
  apply (polyfit_linear_least_squares xs ys); [congruence | exact F].
Qed.

Lemma linear_regression_returns_least_squares_line_reversed_witness :
  exists slope intercept rmse,
    linear_regression (PList [PInt 1; PInt 2; PInt 3])
                      (PList [PInt 2; PInt 4; PInt 6])
    = Return (fit_result (floats [slope; intercept]) rmse)
    /\ forall a b, rss [intercept; slope] [1; 2; 3] [2; 4; 6]
                   <= rss [a; b] [1; 2; 3] [2; 4; 6].
Proof.
  apply (linear_regression_returns_least_squares_line_reversed
           [PInt 1; PInt 2; PInt 3] [PInt 2; PInt 4; PInt 6]
           [1; 2; 3] [2; 4; 6]).
  - reflexivity.
  - reflexivity.
  - reflexivity.
  - exact scenario_1_full_rank.
Defined.
Lemma combine_map_self (f : R -> R) (xs : list R) :
  combine xs (map f xs) = map (fun x => (x, f x)) xs.
Proof.
  induction xs as [|x xs IH]; cbn; [reflexivity|]. rewrite IH. reflexivity.
Qed.

Lemma moment_polynomial (a b c : R) (k : nat) (xs : list R) :
  moment k xs (map (fun x => a + b * x + c * (x * x)) xs)
  = a * power_sum k xs + b * power_sum (S k) xs + c * power_sum (S (S k)) xs.
Proof.
  unfold moment, power_sum. rewrite combine_map_self, map_map.
  induction xs as [|x xs IH]; rsum_step.
  - ring.
  - rewrite IH. cbn [fst snd pow]. ring.
Qed.

Lemma rss_of_function (cs : list R) (f : R -> R) (xs : list R) :
  rss cs xs (map f xs) = rsum (map (fun x => (f x - predicted cs x) ^ 2) xs).
Proof.
  unfold rss. rewrite combine_map_self, map_map. reflexivity.
Qed.

Lemma rmse_spec_zero (cs xs ys : list R) :
  xs <> [] ->
  (rmse_spec cs xs ys = 0 <-> rss cs xs ys = 0).
Proof.
  intros Hxs. unfold rmse_spec.
  assert (Hn : 0 < INR (List.length xs)).
  { apply lt_0_INR. destruct xs; [contradiction | cbn; lia]. }
  assert (Hr : 0 <= rss cs xs ys).
  { unfold rss. apply (rsum_squares_nonneg
                         (fun p : R * R => snd p - predicted cs (fst p))). }
  split; intros H.
  - apply sqrt_eq_0 in H.
    + apply Rmult_eq_compat_r with (r := INR (List.length xs)) in H.
      unfold Rdiv in H. rewrite Rmult_assoc, Rinv_l in H by lra. lra.
    + apply Rmult_le_pos; [exact Hr|]. apply Rlt_le, Rinv_0_lt_compat, Hn.
  - rewrite H. unfold Rdiv. rewrite Rmult_0_l. apply sqrt_0.
Qed.

(** X4: when the samples, finite floats and machine integers, lie exactly
    on a line [y = a + b x] and the design has full numerical rank,
    [linear_regression] returns [params = [b, a]]: the slope first, the
    intercept second.  The RMSE it reports is that of the line
    [b + a x], and it is 0 only when slope and intercept coincide. *)
Theorem linear_regression_on_exact_line
  (xl yl : list pyval) (xs : list R) (a b : R) :
  finite_array xl = Some xs ->
  finite_array yl = Some (map (fun x => a + b * x) xs) ->
  full_numerical_rank1 xs ->
  linear_regression (PList xl) (PList yl)
  = Return (fit_result (floats [b; a])
              (PFloat (Finite (rmse_spec [b; a] xs
                                 (map (fun x => a + b * x) xs)))))
  /\ (rmse_spec [b; a] xs (map (fun x => a + b * x) xs) = 0 <-> a = b).
Proof.
  intros Hxs Hys F.
  set (ys := map (fun x => a + b * x) xs) in *.
  pose proof (finite_array_length _ _ Hxs) as Lx.
  pose proof (finite_array_length _ _ Hys) as Ly.
  assert (Lxy : List.length xs = List.length ys) by (unfold ys; now rewrite length_map).
  destruct (full_numerical_rank1_distinct xs F) as (u & v & Hu & Hv & Huv).
  pose proof (two_distinct_members xs u v Hu Hv Huv) as Hn.
  destruct (full_numerical_rank1_regular xs F) as (_ & _ & HD).
  assert (Hfit : polyfit xs ys 1 = [a; b]).
  { cbn [polyfit]. rewrite (polyfit1_full_rank xs ys F).
    pose proof (moment_polynomial a b 0 0 xs) as M0.
    pose proof (moment_polynomial a b 0 1 xs) as M1.
    assert (E : map (fun x => a + b * x + 0 * (x * x)) xs = ys).
    { unfold ys. apply map_ext. intros x. ring. }
    rewrite E in M0, M1. rewrite M0, M1.
    repeat f_equal; field; lra. }
  split.
  - destruct (linear_regression_fit xl yl xs ys Hxs Hys ltac:(lia) ltac:(lia))
      as (a0 & b0 & Hfit' & Hret).
    rewrite Hfit in Hfit'. inversion Hfit'. subst a0 b0. exact Hret.
  - rewrite rmse_spec_zero by (intros ->; contradiction).
    unfold ys. rewrite rss_of_function. split.
    + intros H.
      pose proof (rsum_squares_zero _ _ H u Hu) as Eu.
      pose proof (rsum_squares_zero _ _ H v Hv) as Ev.
      unfold predicted in Eu, Ev. cbn [poly_terms pow] in Eu, Ev.
      assert (Eu' : (a - b) * (1 - u) = 0) by lra.
      assert (Ev' : (a - b) * (1 - v) = 0) by lra.
      destruct (Rmult_integral _ _ Eu') as [? | ?]; [lra|].
      destruct (Rmult_integral _ _ Ev') as [? | ?]; [lra|].
      exfalso. apply Huv. lra.
    + intros ->.
      assert (Z : forall l : list R,
                 rsum (map (fun x => (b + b * x - predicted [b; b] x) ^ 2) l) = 0).
      { induction l as [|x l IH]; rsum_step; [reflexivity|].
        rewrite IH. unfold predicted. cbn [poly_terms pow]. ring. }
      apply Z.
Qed.

Lemma linear_regression_on_exact_line_witness :
  linear_regression (PList [PInt 0; PInt 1]) (PList [PInt 1; PInt 3])
  = Return (fit_result (floats [2; 1])
              (PFloat (Finite (rmse_spec [2; 1] [0; 1]
                                 (map (fun x => 1 + 2 * x) [0; 1])))))
  /\ (rmse_spec [2; 1] [0; 1] (map (fun x => 1 + 2 * x) [0; 1]) = 0 <-> 1 = 2).
Proof.
  apply (linear_regression_on_exact_line
           [PInt 0; PInt 1] [PInt 1; PInt 3] [0; 1] 1 2).
  - reflexivity.
  - simpl. repeat f_equal; lra.
  - exact linear_example_full_rank.
Defined.

(** A design of full numerical rank for degree 2 holds at least three
    samples. *)
Lemma full_numerical_rank2_length (xs : list R) :
  full_numerical_rank2 xs -> (3 <= List.length xs)%nat.
Proof.
  intros F. pose proof (full_numerical_rank2_regular xs F) as HD.
  destruct (Nat.le_gt_cases (List.length xs) 2) as [H | H]; [|lia].
  exfalso. apply HD, short_lists_singular, H.
Qed.

(** X5: on samples of finite floats and machine integers whose degree-2
    design has full numerical rank (no singular value of the
    column-scaled Vandermonde matrix is at or below [len(x) * eps] times
    another), [quadratic_regression] succeeds and returns [params =
    [quadratic term, linear term, intercept]] of the least-squares
    parabola: the returned triple, read in REVERSE as intercept, linear
    term, quadratic term, minimises the residual sum of squares among all
    polynomials of degree at most 2. *)
Theorem quadratic_regression_returns_least_squares_parabola_reversed
  (xl yl : list pyval) (xs ys : list R) :
  finite_array xl = Some xs ->
  finite_array yl = Some ys ->
  List.length xl = List.length yl ->
  full_numerical_rank2 xs ->
  exists q l i rmse,
    quadratic_regression (PList xl) (PList yl)
    = Return (fit_result (floats [q; l; i]) rmse)
    /\ forall a b c, rss [i; l; q] xs ys <= rss [a; b; c] xs ys.
Proof.
  intros Hxs Hys Hl F.
  pose proof (finite_array_length _ _ Hxs) as Lx.
  pose proof (finite_array_length _ _ Hys) as Ly.
  pose proof (full_numerical_rank2_length xs F) as Hn.
  destruct (quadratic_regression_fit xl yl xs ys Hxs Hys Hl ltac:(lia))
    as (a0 & b0 & c0 & Hfit & Hret).
  exists c0, b0, a0. eexists. split; [exact Hret|].
  intros a b c. rewrite <- Hfit.
  apply polyfit_quadratic_least_squares; [congruence | exact F].
Qed.

Lemma quadratic_regression_returns_least_squares_parabola_reversed_witness :
  exists q l i rmse,
    quadratic_regression (PList [PInt 0; PInt 1; PInt 2])
                         (PList [PInt 1; PInt 6; PInt 17])
    = Return (fit_result (floats [q; l; i]) rmse)
    /\ forall a b c, rss [i; l; q] [0; 1; 2] [1; 6; 17]
                     <= rss [a; b; c] [0; 1; 2] [1; 6; 17].
Proof.
  apply (quadratic_regression_returns_least_squares_parabola_reversed
           [PInt 0; PInt 1; PInt 2] [PInt 1; PInt 6; PInt 17]
           [0; 1; 2] [1; 6; 17]).
  - reflexivity.
  - reflexivity.
  - reflexivity.
  - exact quadratic_example_full_rank.
Defined.

(** X6: when the samples, finite floats and machine integers, lie exactly
    on a parabola [y = a + b x + c x^2] and the degree-2 design has full
    numerical rank, [quadratic_regression] returns [params = [c, b, a]]:
    the quadratic term first and the intercept last. *)
Theorem quadratic_regression_on_exact_parabola
  (xl yl : list pyval) (xs : list R) (a b c : R) :
  finite_array xl = Some xs ->
  finite_array yl = Some (map (fun x => a + b * x + c * (x * x)) xs) ->
  full_numerical_rank2 xs ->
  quadratic_regression (PList xl) (PList yl)
  = Return (fit_result (floats [c; b; a])
              (PFloat (Finite (rmse_spec [c; b; a] xs
                                 (map (fun x => a + b * x + c * (x * x)) xs))))).
Proof.
  intros Hxs Hys F.
  set (ys := map (fun x => a + b * x + c * (x * x)) xs) in *.
  pose proof (finite_array_length _ _ Hxs) as Lx.
  pose proof (finite_array_length _ _ Hys) as Ly.
  assert (Lxy : List.length xs = List.length ys) by (unfold ys; now rewrite length_map).
  pose proof (full_numerical_rank2_length xs F) as Hn.
  pose proof (full_numerical_rank2_regular xs F) as HD.
  assert (Hfit : polyfit xs ys 2 = [a; b; c]).
  { cbn [polyfit]. rewrite (polyfit2_full_rank xs ys F). cbv zeta.
    unfold ys. rewrite !moment_polynomial.
    set (s0 := power_sum 0 xs) in *. set (s1 := power_sum 1 xs) in *.
    set (s2 := power_sum 2 xs) in *. set (s3 := power_sum 3 xs) in *.
    set (s4 := power_sum 4 xs) in *.
    unfold det3 in *. repeat f_equal; field; exact HD. }
  destruct (quadratic_regression_fit xl yl xs ys Hxs Hys ltac:(lia) ltac:(lia))
    as (a0 & b0 & c0 & Hfit' & Hret).
  rewrite Hfit in Hfit'. inversion Hfit'. subst a0 b0 c0. exact Hret.
Qed.

Lemma quadratic_regression_on_exact_parabola_witness :
  quadratic_regression (PList [PInt 0; PInt 1; PInt 2])
                       (PList [PInt 1; PInt 6; PInt 17])
  = Return (fit_result (floats [3; 2; 1])
              (PFloat (Finite (rmse_spec [3; 2; 1] [0; 1; 2]
                                 (map (fun x => 1 + 2 * x + 3 * (x * x))
                                      [0; 1; 2]))))).
Proof.
  apply (quadratic_regression_on_exact_parabola
           [PInt 0; PInt 1; PInt 2] [PInt 1; PInt 6; PInt 17]
           [0; 1; 2] 1 2 3).
  - reflexivity.
  - simpl. repeat f_equal; lra.
  - exact quadratic_example_full_rank.
Defined.

(** X7: on two lists of equal length that hold only finite floats,
    booleans and integers of the machine range [-2^63, 2^64), neither
    regression function raises anything: every such call returns a
    result.  In particular no degenerate sample set (identical x-values,
    too few distinct x-values for the degree) is reported as an error. *)
Theorem regressions_succeed_on_finite_samples
  (xl yl : list pyval) (xs ys : list R) :
  finite_array xl = Some xs ->
  finite_array yl = Some ys ->
  List.length xl = List.length yl ->
  (exists r, linear_regression (PList xl) (PList yl) = Return r)
  /\ (exists r, quadratic_regression (PList xl) (PList yl) = Return r).
Proof.
  intros Hxs Hys Hl.
  pose proof (finite_array_numbers _ _ Hxs) as Nx.
  pose proof (finite_array_numbers _ _ Hys) as Ny.
  split.
  - destruct (Nat.ltb (List.length xl) 2) eqn:E.
    + rewrite (linear_regression_checked xl yl Nx Ny Hl), E. eauto.
    + apply Nat.ltb_ge in E.
      destruct (linear_regression_fit xl yl xs ys Hxs Hys Hl E)
        as (a & b & _ & ->). eauto.
  - destruct (Nat.ltb (List.length xl) 3) eqn:E.
    + rewrite (quadratic_regression_checked xl yl Nx Ny Hl), E. eauto.
    + apply Nat.ltb_ge in E.
      destruct (quadratic_regression_fit xl yl xs ys Hxs Hys Hl E)
        as (a & b & c & _ & ->). eauto.
Qed.

Lemma regressions_succeed_on_finite_samples_witness :
  (exists r, linear_regression (PList [PInt 2; PInt 2; PInt 2])
                               (PList [PInt 1; PInt 5; PInt 9]) = Return r)
  /\ (exists r, quadratic_regression (PList [PInt 2; PInt 2; PInt 2])
                                     (PList [PInt 1; PInt 5; PInt 9]) = Return r).
Proof.
  apply (regressions_succeed_on_finite_samples
           [PInt 2; PInt 2; PInt 2] [PInt 1; PInt 5; PInt 9]
           [2; 2; 2] [1; 5; 9]); reflexivity.
Defined.

(** An integer outside the machine range turns the array into an array
    of objects: the fit raises, and the error is reported as a
    [RuntimeError]. *)
Lemma object_array_is_not_fitted :
  computation_error (linear_regression (ints [2 ^ 64; 1]%Z) (ints [1; 2]%Z))
  = true
  /\ computation_error
       (quadratic_regression (ints [1; 2; 3]%Z) (ints [1; 2; - 2 ^ 63 - 1]%Z))
     = true.
Proof.
  split; reflexivity.
Qed.

(** * Further properties of the transports *)

Lemma handler_except_answer (e : exn) :
  (exists m, e = ValueError m) \/ (exists f c, e = RuntimeError f c) ->
  handler_except e = answer (Raise e).
Proof. intros [[m ->] | (f & c & ->)]; reflexivity. Qed.

Lemma flask_except_answer (e : exn) :
  (exists m, e = ValueError m) \/ (exists f c, e = RuntimeError f c) ->
  flask_except e = answer (Raise e).
Proof. intros [[m ->] | (f & c & ->)]; reflexivity. Qed.

Lemma handler_answers (o : outcome pyval) :
  (forall e, o = Raise e ->
     (exists m, e = ValueError m) \/ (exists f c, e = RuntimeError f c)) ->
  match (result <- o ;; Return (json_response 200 result)) with
  | Return r => r
  | Raise e => handler_except e
  end = answer o.
Proof.
  intros H. destruct o as [r | e]; cbn [bind]; [reflexivity|].
  apply handler_except_answer, H. reflexivity.
Qed.

Lemma flask_answers (o : outcome pyval) :
  (forall e, o = Raise e ->
     (exists m, e = ValueError m) \/ (exists f c, e = RuntimeError f c)) ->
  match (result <- o ;; Return (json_response 200 result)) with
  | Return r => r
  | Raise e => flask_except e
  end = answer o.
Proof.
  intros H. destruct o as [r | e]; cbn [bind]; [reflexivity|].
  apply flask_except_answer, H. reflexivity.
Qed.

Lemma handler_dispatch_aux (event d : dict) (raw rk : pyval) :
  lookup "body" event = Some raw ->
  json_loads (py_or raw (PStr "{}")) = Return (PDict d) ->
  lookup "routeKey" event = Some rk ->
  handler event
  = if eq_str rk "POST /linear" then
      answer (linear_regression (dict_get d "x") (dict_get d "y"))
    else if eq_str rk "POST /quadratic" then
      answer (quadratic_regression (dict_get d "x") (dict_get d "y"))
    else json_response 404 (error_body "Not Found").
Proof.
  intros Hb Hj Hr. unfold handler, getitem.
  rewrite Hb. cbn [bind]. rewrite Hj. cbn [bind get].
  fold (dict_get d "x"). fold (dict_get d "y"). rewrite Hr. cbn [bind].
  destruct (eq_str rk "POST /linear").
  - apply handler_answers. apply linear_regression_raises.
  - destruct (eq_str rk "POST /quadratic"); [|reflexivity].
    apply handler_answers. apply quadratic_regression_raises.
Qed.

(** X8: the handler's dispatch.  When the event has a body that decodes
    to a JSON object (an empty body counts as [{}]) and a route key, the
    response is fixed by the route key alone: [POST /linear] and [POST
    /quadratic] answer the outcome of their regression function on
    [body.get('x')] and [body.get('y')], with 200 and the result, 400 and
    the text of a [ValueError], or 500 and the text of a [RuntimeError];
    every other route key answers 404 [Not Found]. *)
Theorem handler_dispatch (event d : dict) (raw rk : pyval) :
  lookup "body" event = Some raw ->
  json_loads (py_or raw (PStr "{}")) = Return (PDict d) ->
  lookup "routeKey" event = Some rk ->
  handler event
  = if eq_str rk "POST /linear" then
      answer (linear_regression (dict_get d "x") (dict_get d "y"))
    else if eq_str rk "POST /quadratic" then
      answer (quadratic_regression (dict_get d "x") (dict_get d "y"))
    else json_response 404 (error_body "Not Found").
Proof.
  intros Hb Hj Hr. unfold handler, getitem.
  rewrite Hb. cbn [bind]. rewrite Hj. cbn [bind get].
  fold (dict_get d "x"). fold (dict_get d "y"). rewrite Hr. cbn [bind].
  destruct (eq_str rk "POST /linear").
  - apply handler_answers. apply linear_regression_raises.
  - destruct (eq_str rk "POST /quadratic"); [|reflexivity].
    apply handler_answers. apply quadratic_regression_raises.
Qed.

Lemma handler_dispatch_witness :
  handler (http_event "POST /linear" one_sample_payload)
  = json_response 200 (fit_result [PInt 0; PInt 0] (PInt 0))
  /\ handler (http_event "GET /linear" one_sample_payload)
     = json_response 404 (error_body "Not Found").
Proof.
  split.
  - apply (handler_dispatch (http_event "POST /linear" one_sample_payload)
             [("x"%string, PList [PInt 1]); ("y"%string, PList [PInt 2])]
             (PStr one_sample_payload) (PStr "POST /linear")); reflexivity.
  - apply (handler_dispatch (http_event "GET /linear" one_sample_payload)
             [("x"%string, PList [PInt 1]); ("y"%string, PList [PInt 2])]
             (PStr one_sample_payload) (PStr "GET /linear")); reflexivity.
Defined.

(** X9: in the handler a body that is a non-empty string and not valid
    JSON is answered with status 400 and the bare text of the decode
    error, whatever the route key is and even when it is missing: the
    decode error is a [ValueError], so the first [except] clause takes it
    and the clause that would prefix [Invalid JSON in request body] never
    runs. *)
Theorem handler_malformed_json (event : dict) (s : string) :
  lookup "body" event = Some (PStr s) ->
  s <> EmptyString ->
  Json.loads s = None ->
  exists m,
    json_loads (PStr s) = Raise (JSONDecodeError m)
    /\ handler event = json_response 400 (error_body m).
Proof.
  intros Hb Hs Hl. eexists. split.
  - cbn [json_loads]. rewrite Hl. reflexivity.
  - unfold handler, getitem. rewrite Hb. cbn [bind].
    assert (Hor : py_or (PStr s) (PStr "{}") = PStr s).
    { destruct s; [contradiction | reflexivity]. }
    rewrite Hor. cbn [json_loads]. rewrite Hl. reflexivity.
Qed.

Lemma handler_malformed_json_witness :
  exists m,
    json_loads (PStr "{") = Raise (JSONDecodeError m)
    /\ handler [("body"%string, PStr "{")] = json_response 400 (error_body m).
Proof.
  apply (handler_malformed_json [("body"%string, PStr "{")] "{").
  - reflexivity.
  - discriminate.
  - reflexivity.
Defined.

(** X10: in the handler a body that decodes to JSON other than an object
    (an array, a number, a string, a boolean, null) is answered with
    status 500 and [Internal Server Error:] followed by the text of the
    [AttributeError] of [body.get], whatever the route key. *)
Theorem handler_non_object_body (event : dict) (raw v : pyval) :
  lookup "body" event = Some raw ->
  json_loads (py_or raw (PStr "{}")) = Return v ->
  (forall d, v <> PDict d) ->
  handler event
  = json_response 500
      (error_body
         (String.append "Internal Server Error: "
            (String.append (quoted (type_name v))
                           " object has no attribute 'get'"))).
Proof.
  intros Hb Hj Hv. unfold handler, getitem.
  rewrite Hb. cbn [bind]. rewrite Hj. cbn [bind].
  destruct v; try reflexivity. exfalso. exact (Hv d eq_refl).
Qed.

Lemma handler_non_object_body_witness :
  handler (http_event "POST /linear" "[1, 2]")
  = json_response 500
      (error_body "Internal Server Error: 'list' object has no attribute 'get'").
Proof.
  apply (handler_non_object_body (http_event "POST /linear" "[1, 2]")
           (PStr "[1, 2]") (PList [PInt 1; PInt 2])).
  - reflexivity.
  - reflexivity.
  - discriminate.
Defined.

(** X11: an event without the key [routeKey] is answered with status 400
    and the text of the [KeyError], once its body has decoded to a JSON
    object. *)
Theorem handler_missing_route_key (event d : dict) (raw : pyval) :
  lookup "body" event = Some raw ->
  json_loads (py_or raw (PStr "{}")) = Return (PDict d) ->
  lookup "routeKey" event = None ->
  handler event = json_response 400 (error_body "'routeKey'").
Proof.
  intros Hb Hj Hr. unfold handler, getitem.
  rewrite Hb. cbn [bind]. rewrite Hj. cbn [bind get]. rewrite Hr. reflexivity.
Qed.

Lemma handler_missing_route_key_witness :
  handler [("body"%string, PStr one_sample_payload)]
  = json_response 400 (error_body "'routeKey'").
Proof.
  apply (handler_missing_route_key [("body"%string, PStr one_sample_payload)]
           [("x"%string, PList [PInt 1]); ("y"%string, PList [PInt 2])]
           (PStr one_sample_payload)); reflexivity.
Defined.

Lemma not_lists_rejected (x y : pyval) :
  isinstance_list x = false \/ isinstance_list y = false ->
  linear_regression x y
  = Raise (ValueError "Input arguments 'x' and 'y' must be lists.")
  /\ quadratic_regression x y
     = Raise (ValueError "Input arguments 'x' and 'y' must be lists.").
Proof.
  intros H. unfold linear_regression, quadratic_regression.
  assert (E : negb (isinstance_list x) || negb (isinstance_list y) = true).
  { destruct H as [-> | ->]; [reflexivity | apply orb_true_r]. }
  rewrite E. split; reflexivity.
Qed.

(** X12: on the two regression routes of the handler, a JSON object in
    which [x] or [y] is missing, null, or anything but an array is
    answered with status 400 and the message of the list check; the
    handler has no missing-field message of its own. *)
Theorem handler_fields_not_arrays (event d : dict) (raw rk : pyval) :
  lookup "body" event = Some raw ->
  json_loads (py_or raw (PStr "{}")) = Return (PDict d) ->
  lookup "routeKey" event = Some rk ->
  rk = PStr "POST /linear" \/ rk = PStr "POST /quadratic" ->
  isinstance_list (dict_get d "x") = false
  \/ isinstance_list (dict_get d "y") = false ->
  handler event
  = json_response 400
      (error_body "Input arguments 'x' and 'y' must be lists.").
Proof.
  intros Hb Hj Hr Hrk Hf.
  rewrite (handler_dispatch_aux event d raw rk Hb Hj Hr).
  destruct (not_lists_rejected _ _ Hf) as [El Eq].
  destruct Hrk as [-> | ->]; cbn [eq_str String.eqb Ascii.eqb Bool.eqb].
  - rewrite El. reflexivity.
  - rewrite Eq. reflexivity.
Qed.

Lemma handler_fields_not_arrays_witness :
  handler (http_event "POST /quadratic" "")
  = json_response 400
      (error_body "Input arguments 'x' and 'y' must be lists.").
Proof.
  apply (handler_fields_not_arrays (http_event "POST /quadratic" "") []
           (PStr "") (PStr "POST /quadratic")).
  - reflexivity.
  - reflexivity.
  - reflexivity.
  - right. reflexivity.
  - left. reflexivity.
Defined.

Lemma answer_status (o : outcome pyval) :
  statusCode (answer o) = 200%Z \/ statusCode (answer o) = 400%Z
  \/ statusCode (answer o) = 500%Z.
Proof.
  destruct o as [r | e]; cbn; [auto|].
  destruct (isinstance_ValueError e); auto.
Qed.

Lemma handler_except_status (e : exn) :
  statusCode (handler_except e) = 400%Z \/ statusCode (handler_except e) = 500%Z.
Proof.
  unfold handler_except.
  destruct (isinstance_ValueError e || isinstance_KeyError e); [auto|].
  destruct (isinstance_JSONDecodeError e); [auto|].
  destruct (isinstance_RuntimeError e); auto.
Qed.

(** X13: the handler answers 404 exactly when the event has a body that
    decodes to a JSON object and a route key that is neither [POST
    /linear] nor [POST /quadratic].  A missing body, a body that is not a
    JSON object or a missing route key is never a 404. *)
Theorem handler_not_found_iff (event : dict) :
  statusCode (handler event) = 404%Z
  <-> exists raw d rk,
        lookup "body" event = Some raw
        /\ json_loads (py_or raw (PStr "{}")) = Return (PDict d)
        /\ lookup "routeKey" event = Some rk
        /\ eq_str rk "POST /linear" = false
        /\ eq_str rk "POST /quadratic" = false.
Proof.
  split.
  - destruct (lookup "body" event) as [raw|] eqn:Hb.
    2:{ unfold handler, getitem. rewrite Hb. cbn. discriminate. }
    destruct (json_loads (py_or raw (PStr "{}"))) as [v | e] eqn:Hj.
    2:{ unfold handler, getitem. rewrite Hb. cbn [bind]. rewrite Hj. cbn [bind].
        destruct (handler_except_status e) as [-> | ->]; discriminate. }
    destruct (match v with PDict _ => true | _ => false end) eqn:Hv.
    2:{ unfold handler, getitem. rewrite Hb. cbn [bind]. rewrite Hj. cbn [bind].
        destruct v; try discriminate Hv; cbn; discriminate. }
    destruct v as [| | | | | |d]; try discriminate Hv.
    destruct (lookup "routeKey" event) as [rk|] eqn:Hr.
    2:{ unfold handler, getitem. rewrite Hb. cbn [bind]. rewrite Hj.
        cbn [bind get]. rewrite Hr. cbn. discriminate. }
    rewrite (handler_dispatch_aux event d raw rk Hb Hj Hr).
    destruct (eq_str rk "POST /linear") eqn:E1.
    { intros H. destruct (answer_status
                            (linear_regression (dict_get d "x") (dict_get d "y")))
        as [E | [E | E]]; rewrite E in H; discriminate. }
    destruct (eq_str rk "POST /quadratic") eqn:E2.
    { intros H. destruct (answer_status
                            (quadratic_regression (dict_get d "x") (dict_get d "y")))
        as [E | [E | E]]; rewrite E in H; discriminate. }
    intros _. exists raw, d, rk. auto.
  - intros (raw & d & rk & Hb & Hj & Hr & E1 & E2).
    rewrite (handler_dispatch_aux event d raw rk Hb Hj Hr), E1, E2. reflexivity.
Qed.

Lemma answer_well_formed (o : outcome pyval) (allowed : list Z) :
  In 200%Z allowed -> In 400%Z allowed -> In 500%Z allowed ->
  (forall r, o = Return r -> exists params rmse, r = fit_result params rmse) ->
  well_formed_response allowed (answer o).
Proof.
  intros H2 H4 H5 Hr. unfold well_formed_response.
  destruct o as [r | e]; cbn.
  - split; [reflexivity|]. split; [exact H2|]. left. split; [reflexivity|].
    apply Hr. reflexivity.
  - split; [reflexivity|].
    destruct (isinstance_ValueError e); (split; [assumption|]);
      right; (split; [discriminate | eauto]).
Qed.

Lemma error_response_well_formed (allowed : list Z) (status : Z) (msg : string) :
  In status allowed -> status <> 200%Z ->
  well_formed_response allowed (json_response status (error_body msg)).
Proof.
  intros Hin Hne. unfold well_formed_response. cbn.
  split; [reflexivity|]. split; [exact Hin|]. right. eauto.
Qed.

Lemma handler_except_well_formed (e : exn) :
  well_formed_response [200; 400; 404; 500]%Z (handler_except e).
Proof.
  unfold handler_except.
  destruct (isinstance_ValueError e || isinstance_KeyError e);
    [apply error_response_well_formed; cbn; auto; discriminate|].
  destruct (isinstance_JSONDecodeError e);
    [apply error_response_well_formed; cbn; auto; discriminate|].
  destruct (isinstance_RuntimeError e);
    apply error_response_well_formed; cbn; auto; discriminate.
Qed.

Lemma flask_except_well_formed (e : exn) :
  well_formed_response [200; 400; 500]%Z (flask_except e).
Proof.
  unfold flask_except.
  destruct (isinstance_ValueError e);
    [apply error_response_well_formed; cbn; auto; discriminate|].
  destruct (isinstance_RuntimeError e);
    apply error_response_well_formed; cbn; auto; discriminate.
Qed.

Lemma linear_result_is_fit (x y r : pyval) :
  linear_regression x y = Return r -> exists params rmse, r = fit_result params rmse.
Proof.
  intros H. destruct (linear_regression_returns x y r H) as (p0 & p1 & rmse & -> & _).
  eauto.
Qed.

Lemma quadratic_result_is_fit (x y r : pyval) :
  quadratic_regression x y = Return r -> exists params rmse, r = fit_result params rmse.
Proof.
  intros H.
  destruct (quadratic_regression_returns x y r H) as (p0 & p1 & p2 & rmse & -> & _).
  eauto.
Qed.

(** X14: every response of the handler, for every event, carries the
    JSON content type and one of the status codes 200, 400, 404, 500;
    with 200 its body is a result holding [params] and [RMSE], and with
    any other status its body is an object holding exactly one [error]
    message. *)
Theorem handler_response_well_formed (event : dict) :
  well_formed_response [200; 400; 404; 500]%Z (handler event).
Proof.
  destruct (lookup "body" event) as [raw|] eqn:Hb.
  2:{ unfold handler, getitem. rewrite Hb. apply handler_except_well_formed. }
  destruct (json_loads (py_or raw (PStr "{}"))) as [v | e] eqn:Hj.
  2:{ unfold handler, getitem. rewrite Hb. cbn [bind]. rewrite Hj.
      apply handler_except_well_formed. }
  destruct (get v "x") as [x | e] eqn:Hx.
  2:{ unfold handler, getitem. rewrite Hb. cbn [bind]. rewrite Hj. cbn [bind].
      rewrite Hx. apply handler_except_well_formed. }
  destruct v as [| | | | | |d]; try discriminate Hx.
  destruct (lookup "routeKey" event) as [rk|] eqn:Hr.
  2:{ unfold handler, getitem. rewrite Hb. cbn [bind]. rewrite Hj.
      cbn [bind get]. rewrite Hr. apply handler_except_well_formed. }
  rewrite (handler_dispatch_aux event d raw rk Hb Hj Hr).
  destruct (eq_str rk "POST /linear").
  - apply answer_well_formed; cbn; auto. apply linear_result_is_fit.
  - destruct (eq_str rk "POST /quadratic").
    + apply answer_well_formed; cbn; auto. apply quadratic_result_is_fit.
    + apply error_response_well_formed; cbn; auto. discriminate.
Qed.

Lemma flask_dispatch_aux
  (regression : pyval -> pyval -> outcome pyval) (payload : string) (d : dict) :
  (forall x y e, regression x y = Raise e ->
     (exists m, e = ValueError m) \/ (exists f c, e = RuntimeError f c)) ->
  Json.loads payload = Some (PDict d) ->
  d <> [] ->
  flask_route regression payload
  = if (is_None (dict_get d "x") || is_None (dict_get d "y"))%bool then
      json_response 400 (error_body missing_fields)
    else answer (regression (dict_get d "x") (dict_get d "y")).
Proof.
  intros Hraise Hp Hd. unfold flask_route, get_json. rewrite Hp. cbn [bind].
  assert (Ht : truthy (PDict d) = true) by (destruct d; [contradiction | reflexivity]).
  rewrite Ht. cbn [negb get bind].
  fold (dict_get d "x"). fold (dict_get d "y").
  destruct (is_None (dict_get d "x") || is_None (dict_get d "y"))%bool;
    [reflexivity|].
  apply flask_answers. apply Hraise.
Qed.

(** X15: the dispatch of the Flask routes.  When the request body decodes
    to a non-empty JSON object, a route answers 400 with [Request body
    must contain "x" and "y" arrays.] if [x] or [y] is missing or null,
    without calling its regression function; otherwise it answers the
    outcome of its regression function: 200 and the result, 400 and the
    text of a [ValueError], or 500 and the text of a [RuntimeError]. *)
Theorem flask_dispatch (payload : string) (d : dict) :
  Json.loads payload = Some (PDict d) ->
  d <> [] ->
  linear payload
  = (if (is_None (dict_get d "x") || is_None (dict_get d "y"))%bool then
       json_response 400 (error_body missing_fields)
     else answer (linear_regression (dict_get d "x") (dict_get d "y")))
  /\ quadratic payload
     = (if (is_None (dict_get d "x") || is_None (dict_get d "y"))%bool then
          json_response 400 (error_body missing_fields)
        else answer (quadratic_regression (dict_get d "x") (dict_get d "y"))).
Proof.
  intros Hp Hd. split.
  - apply (flask_dispatch_aux linear_regression payload d);
      [apply linear_regression_raises | exact Hp | exact Hd].
  - apply (flask_dispatch_aux quadratic_regression payload d);
      [apply quadratic_regression_raises | exact Hp | exact Hd].
Qed.

Lemma flask_dispatch_witness :
  linear one_sample_payload
  = json_response 200 (fit_result [PInt 0; PInt 0] (PInt 0))
  /\ quadratic one_sample_payload
     = json_response 200 (fit_result [PInt 0; PInt 0; PInt 0] (PInt 0)).
Proof.
  apply (flask_dispatch one_sample_payload
           [("x"%string, PList [PInt 1]); ("y"%string, PList [PInt 2])]).
  - reflexivity.
  - discriminate.
Defined.

(** X16: every response of the two Flask routes, for every request body,
    carries the JSON content type and one of the status codes 200, 400,
    500, never 404; with 200 its body is a result holding [params] and
    [RMSE], and with any other status its body is an object holding
    exactly one [error] message. *)
Theorem flask_response_well_formed (payload : string) :
  well_formed_response [200; 400; 500]%Z (linear payload)
  /\ well_formed_response [200; 400; 500]%Z (quadratic payload).
Proof.
  assert (G : forall regression,
             (forall x y e, regression x y = Raise e ->
                (exists m, e = ValueError m) \/ (exists f c, e = RuntimeError f c)) ->
             (forall x y r, regression x y = Return r ->
                exists params rmse, r = fit_result params rmse) ->
             well_formed_response [200; 400; 500]%Z (flask_route regression payload)).
  { intros regression Hraise Hret.
    destruct (Json.loads payload) as [data|] eqn:Hp.
    2:{ unfold flask_route, get_json. rewrite Hp. apply flask_except_well_formed. }
    destruct (truthy data) eqn:Ht.
    2:{ unfold flask_route, get_json. rewrite Hp. cbn [bind]. rewrite Ht.
        apply error_response_well_formed; cbn; auto. discriminate. }
    destruct (get data "x") as [x | e] eqn:Hx.
    2:{ unfold flask_route, get_json. rewrite Hp. cbn [bind]. rewrite Ht.
        cbn [negb]. rewrite Hx. apply flask_except_well_formed. }
    destruct data as [| | | | | |d]; try discriminate Hx.
    rewrite (flask_dispatch_aux regression payload d Hraise Hp)
      by (intros ->; discriminate Ht).
    destruct (is_None (dict_get d "x") || is_None (dict_get d "y"))%bool.
    - apply error_response_well_formed; cbn; auto. discriminate.
    - apply answer_well_formed; cbn; auto. apply Hret. }
  split.
  - apply G; [apply linear_regression_raises | apply linear_result_is_fit].
  - apply G; [apply quadratic_regression_raises | apply quadratic_result_is_fit].
Qed.

(** X17: a request body that decodes to truthy JSON other than an object
    (a non-empty array or string, a non-zero number, [true]) is answered
    by both Flask routes with status 500 and [Internal server error:]
    followed by the text of the [AttributeError] of [data.get]. *)
Theorem flask_non_object_body (payload : string) (v : pyval) :
  Json.loads payload = Some v ->
  truthy v = true ->
  (forall d, v <> PDict d) ->
  linear payload
  = json_response 500
      (error_body
         (String.append "Internal server error: "
            (String.append (quoted (type_name v))
                           " object has no attribute 'get'")))
  /\ quadratic payload
     = json_response 500
         (error_body
            (String.append "Internal server error: "
               (String.append (quoted (type_name v))
                              " object has no attribute 'get'"))).
Proof.
  intros Hp Ht Hv. unfold linear, quadratic, flask_route, get_json.
  rewrite Hp. cbn [bind]. rewrite Ht. cbn [negb].
  destruct v; try (split; reflexivity). exfalso. exact (Hv d eq_refl).
Qed.

Lemma flask_non_object_body_witness :
  linear "[1, 2]"
  = json_response 500
      (error_body "Internal server error: 'list' object has no attribute 'get'")
  /\ quadratic "[1, 2]"
     = json_response 500
         (error_body "Internal server error: 'list' object has no attribute 'get'").
Proof.
  apply (flask_non_object_body "[1, 2]" (PList [PInt 1; PInt 2])).
  - reflexivity.
  - reflexivity.
  - discriminate.
Defined.

(** X18: when the event's [body] is present, truthy and not a string (an
    already decoded object, a number), [json.loads] raises [TypeError]
    and the handler answers status 500 with [Internal Server Error:] and
    the text of that error, whatever the route key. *)
Theorem handler_body_not_a_string (event : dict) (raw : pyval) :
  lookup "body" event = Some raw ->
  truthy raw = true ->
  (forall s, raw <> PStr s) ->
  handler event
  = json_response 500
      (error_body
         (String.append "Internal Server Error: "
            (String.append "the JSON object must be str, bytes or bytearray, not "
                           (type_name raw)))).
Proof.
  intros Hb Ht Hs. unfold handler, getitem. rewrite Hb. cbn [bind].
  unfold py_or. rewrite Ht.
  destruct raw; try reflexivity. exfalso. exact (Hs s eq_refl).
Qed.

Lemma handler_body_not_a_string_witness :
  handler [("routeKey"%string, PStr "POST /linear");
           ("body"%string, PDict [("x"%string, PList [PInt 1])])]
  = json_response 500
      (error_body
         "Internal Server Error: the JSON object must be str, bytes or bytearray, not dict").
Proof.
  apply (handler_body_not_a_string
           [("routeKey"%string, PStr "POST /linear");
            ("body"%string, PDict [("x"%string, PList [PInt 1])])]
           (PDict [("x"%string, PList [PInt 1])])).
  - reflexivity.
  - reflexivity.
  - discriminate.
Defined.

(** * The monolithic copy *)

Lemma monolith_linear_regression (x y : pyval) :
  Monolith.linear_regression x y
  = Monolith.as_monolith "Error during linear regression: "
      (linear_regression x y).
Proof.
  unfold Monolith.linear_regression, linear_regression, try_except.
  repeat match goal with
         | |- context [if ?b then _ else _] => destruct b; [reflexivity|]
         end.
  destruct (bind _ _); reflexivity.
Qed.

Lemma monolith_quadratic_regression (x y : pyval) :
  Monolith.quadratic_regression x y
  = Monolith.as_monolith "Error during quadratic regression: "
      (quadratic_regression x y).
Proof.
  unfold Monolith.quadratic_regression, quadratic_regression, try_except.
  repeat match goal with
         | |- context [if ?b then _ else _] => destruct b; [reflexivity|]
         end.
  destruct (bind _ _); reflexivity.
Qed.

(** X19: the regression functions of the monolithic
    [lambda_function.py] and those of [myfit.py] return the same result
    and raise the same [ValueError] on every input; where [myfit.py]
    raises its two-argument [RuntimeError], the monolithic copy raises a
    [RuntimeError] whose text is the prefix followed by the text of the
    cause. *)
Theorem monolith_regressions_agree (x y : pyval) :
  Monolith.linear_regression x y
  = match linear_regression x y with
    | Return r => Monolith.Ok r
    | Raise (RuntimeError _ cause) =>
        Monolith.Err (Monolith.RuntimeErrorStr
                        (String.append "Error during linear regression: "
                                       (str_exn cause)))
    | Raise e => Monolith.Err (Monolith.Raised e)
    end
  /\ Monolith.quadratic_regression x y
     = match quadratic_regression x y with
       | Return r => Monolith.Ok r
       | Raise (RuntimeError _ cause) =>
           Monolith.Err (Monolith.RuntimeErrorStr
                           (String.append "Error during quadratic regression: "
                                          (str_exn cause)))
       | Raise e => Monolith.Err (Monolith.Raised e)
       end.
Proof.
  split.
  - rewrite monolith_linear_regression. reflexivity.
  - rewrite monolith_quadratic_regression. reflexivity.
Qed.

Lemma same_up_to_500_text_refl (r : response) : same_up_to_500_text r r.
Proof. unfold same_up_to_500_text. auto. Qed.

Lemma monolith_handler_answers (prefix : string) (o : outcome pyval) :
  (forall e, o = Raise e ->
     (exists m, e = ValueError m) \/ (exists f c, e = RuntimeError f c)) ->
  same_up_to_500_text
    match Monolith.bind (Monolith.as_monolith prefix o)
            (fun result => Monolith.Ok (json_response 200 result)) with
    | Monolith.Ok r => r
    | Monolith.Err r => Monolith.handler_except r
    end
    match (result <- o ;; Return (json_response 200 result)) with
    | Return r => r
    | Raise e => handler_except e
    end.
Proof.
  intros H. destruct o as [r | e]; cbn; [apply same_up_to_500_text_refl|].
  destruct (H e eq_refl) as [[m ->] | (f & c & ->)]; cbn.
  - apply same_up_to_500_text_refl.
  - unfold same_up_to_500_text. cbn. repeat split. intros N. contradiction.
Qed.

Lemma monolith_flask_answers (prefix : string) (o : outcome pyval) :
  (forall e, o = Raise e ->
     (exists m, e = ValueError m) \/ (exists f c, e = RuntimeError f c)) ->
  same_up_to_500_text
    match Monolith.bind (Monolith.as_monolith prefix o)
            (fun result => Monolith.Ok (json_response 200 result)) with
    | Monolith.Ok r => r
    | Monolith.Err r => Monolith.flask_except r
    end
    match (result <- o ;; Return (json_response 200 result)) with
    | Return r => r
    | Raise e => flask_except e
    end.
Proof.
  intros H. destruct o as [r | e]; cbn; [apply same_up_to_500_text_refl|].
  destruct (H e eq_refl) as [[m ->] | (f & c & ->)]; cbn.
  - apply same_up_to_500_text_refl.
  - unfold same_up_to_500_text. cbn. repeat split. intros N. contradiction.
Qed.

(** X20: the handler of the monolithic [lambda_function.py] and the
    handler of [code/lambda_function.py] answer every event with the same
    status code and headers, and with the same body whenever the status
    is not 500; they can differ only in the text of a 500 answer. *)
Theorem monolith_handler_agrees (event : dict) :
  same_up_to_500_text (Monolith.handler event) (handler event).
Proof.
  unfold Monolith.handler, handler, getitem.
  destruct (lookup "body" event) as [raw|];
    cbn [bind Monolith.bind Monolith.call]; [|apply same_up_to_500_text_refl].
  destruct (json_loads (py_or raw (PStr "{}"))) as [v | e];
    cbn [bind Monolith.bind Monolith.call]; [|apply same_up_to_500_text_refl].
  destruct (get v "x") as [x | e];
    cbn [bind Monolith.bind Monolith.call]; [|apply same_up_to_500_text_refl].
  destruct (get v "y") as [y | e];
    cbn [bind Monolith.bind Monolith.call]; [|apply same_up_to_500_text_refl].
  destruct (lookup "routeKey" event) as [rk|];
    cbn [bind Monolith.bind Monolith.call]; [|apply same_up_to_500_text_refl].
  destruct (eq_str rk "POST /linear").
  - rewrite monolith_linear_regression.
    apply monolith_handler_answers, linear_regression_raises.
  - destruct (eq_str rk "POST /quadratic"); [|apply same_up_to_500_text_refl].
    rewrite monolith_quadratic_regression.
    apply monolith_handler_answers, quadratic_regression_raises.
Qed.

(** X21: the Flask routes of the monolithic [lambda_function.py] and
    those of [code/lambda_function.py] answer every request body with the
    same status code and headers, and with the same body whenever the
    status is not 500. *)
Theorem monolith_routes_agree (payload : string) :
  same_up_to_500_text (Monolith.linear payload) (linear payload)
  /\ same_up_to_500_text (Monolith.quadratic payload) (quadratic payload).
Proof.
  unfold Monolith.linear, Monolith.quadratic, linear, quadratic,
    Monolith.flask_route, flask_route.
  destruct (get_json payload) as [data | e];
    cbn [bind Monolith.bind Monolith.call];
    [|split; apply same_up_to_500_text_refl].
  destruct (negb (truthy data)); [split; apply same_up_to_500_text_refl|].
  destruct (get data "x") as [x | e];
    cbn [bind Monolith.bind Monolith.call];
    [|split; apply same_up_to_500_text_refl].
  destruct (get data "y") as [y | e];
    cbn [bind Monolith.bind Monolith.call];
    [|split; apply same_up_to_500_text_refl].
  destruct (is_None x || is_None y)%bool;
    [split; apply same_up_to_500_text_refl|].
  split.
  - rewrite monolith_linear_regression.
    apply monolith_flask_answers, linear_regression_raises.
  - rewrite monolith_quadratic_regression.
    apply monolith_flask_answers, quadratic_regression_raises.
Qed.
